(** * Doctor Network Checker: the lookup and link-generation core

    A shallow embedding of [check_doctors.py] (the command-line tool) and
    of the Python part of [app.py] (the web form), with the properties of
    the doctor parser, the location resolver, the registry client, the
    link generator and the two orchestrating loops.

    Python values are modelled as follows.
    - [str] is a [string] whose characters are the code points 0..255
      (the Latin-1 block of Unicode); [lower], [strip], [split] and
      [quote] act on these code points as Python does.
    - [int] is [Z]; [float] is a finite decimal ([pyfloat]).
    - a decoded JSON document is a [JSON] tree; a Python [dict] is an
      association list read at its first binding of a key.
    - a raised exception is the [Err] case of [pyresult]; only the
      classes the two programs tell apart are kept ([exn]).
    - the network is a [World]: an answer for every request, and the list
      of the requests issued so far. *)

From Stdlib Require Import ZArith Ascii String List Lia Bool DecimalString.
From stdpp Require Import base option list strings gmap.

Local Open Scope Z_scope.

(** ** Python primitives *)

Module Py.

(** *** Exceptions *)

(** The exception classes that some [except] clause of the two programs
    tells apart.  [OtherError] stands for the built-in errors raised by
    operations on ill-shaped values ([AttributeError], [TypeError],
    [KeyError], [IndexError]): none of them is a [RequestException] or a
    [ValueError]. *)
Inductive exn :=
| RequestException
| ValueError (msg : string)
| OtherError.

Inductive pyresult (A : Type) :=
| Ok (a : A)
| Err (e : exn).
Arguments Ok {A} a.
Arguments Err {A} e.

Definition rbind {A B} (m : pyresult A) (k : A -> pyresult B) : pyresult B :=
  match m with
  | Ok a => k a
  | Err e => Err e
  end.

Definition is_request_exception (e : exn) : bool :=
  match e with RequestException => true | _ => false end.

(** *** Characters *)

Definition code (c : ascii) : nat := nat_of_ascii c.

(** [str.isspace] on one code point below 256. *)
Definition isspace (c : ascii) : bool :=
  let n := code c in
  ((9 <=? n) && (n <=? 13) || (28 <=? n) && (n <=? 32)
   || (n =? 133) || (n =? 160))%nat.

(** [str.lower] on one code point below 256: A-Z, and the accented
    capitals U+00C0..U+00DE except the multiplication sign U+00D7. *)
Definition lower_char (c : ascii) : ascii :=
  let n := code c in
  if ((65 <=? n) && (n <=? 90)
      || (192 <=? n) && (n <=? 222) && negb (n =? 215))%nat
  then ascii_of_nat (n + 32) else c.

(** *** Strings *)

Fixpoint lower (s : string) : string :=
  match s with
  | EmptyString => EmptyString
  | String c s' => String (lower_char c) (lower s')
  end.

Definition is_empty (s : string) : bool :=
  match s with EmptyString => true | _ => false end.

Fixpoint lstrip (s : string) : string :=
  match s with
  | EmptyString => EmptyString
  | String c s' => if isspace c then lstrip s' else s
  end.

Fixpoint rstrip (s : string) : string :=
  match s with
  | EmptyString => EmptyString
  | String c s' =>
      let r := rstrip s' in
      if isspace c && is_empty r then EmptyString else String c r
  end.

(** [s.strip()] *)
Definition strip (s : string) : string := rstrip (lstrip s).

Fixpoint startswith (p s : string) : bool :=
  match p, s with
  | EmptyString, _ => true
  | String a p', String b s' => Ascii.eqb a b && startswith p' s'
  | String _ _, EmptyString => false
  end.

(** [sub in s] *)
Fixpoint contains (sub s : string) : bool :=
  startswith sub s ||
  match s with
  | EmptyString => false
  | String _ s' => contains sub s'
  end.

Fixpoint replace_from (old new s : string) (skip : nat) : string :=
  match s with
  | EmptyString => EmptyString
  | String c s' =>
      match skip with
      | S k => replace_from old new s' k
      | O =>
          if startswith old s
          then new +:+ replace_from old new s' (String.length old - 1)
          else String c (replace_from old new s' 0)
      end
  end.

Fixpoint interleave (new s : string) : string :=
  match s with
  | EmptyString => EmptyString
  | String c s' => String c (new +:+ interleave new s')
  end.

(** [s.replace(old, new)]: the occurrences of [old] are replaced from the
    left, without overlap; an empty [old] matches between any two
    characters and at both ends. *)
Definition replace (old new s : string) : string :=
  if is_empty old then new +:+ interleave new s
  else replace_from old new s 0.

(** [s.split(sep)] for a separator of one character: the pieces between
    the separators, empty ones included. *)
Fixpoint split (sep : ascii) (s : string) : list string :=
  match s with
  | EmptyString => [EmptyString]
  | String c s' =>
      if Ascii.eqb c sep then EmptyString :: split sep s'
      else match split sep s' with
           | p :: ps => String c p :: ps
           | [] => [String c EmptyString]
           end
  end.

(** [s.split(sep, 1)] for a separator of one character. *)
Fixpoint split1 (sep : ascii) (s : string) : list string :=
  match s with
  | EmptyString => [EmptyString]
  | String c s' =>
      if Ascii.eqb c sep then [EmptyString; s']
      else match split1 sep s' with
           | p :: ps => String c p :: ps
           | [] => [String c EmptyString]
           end
  end.

(** [s.split()]: the maximal runs of characters that are not white space.
    [cur] is the run being read, if any. *)
Fixpoint split_ws_from (cur : option string) (s : string) : list string :=
  match s with
  | EmptyString => match cur with Some w => [w] | None => [] end
  | String c s' =>
      if isspace c
      then match cur with
           | Some w => w :: split_ws_from None s'
           | None => split_ws_from None s'
           end
      else split_ws_from
             (Some (match cur with
                    | Some w => w +:+ String c EmptyString
                    | None => String c EmptyString
                    end)) s'
  end.

Definition split_ws (s : string) : list string := split_ws_from None s.

(** [sep.join(l)] *)
Fixpoint join (sep : string) (l : list string) : string :=
  match l with
  | [] => EmptyString
  | [x] => x
  | x :: l' => x +:+ sep +:+ join sep l'
  end.

(** [s.index(c)] for one character; [None] is Python's [ValueError]. *)
Fixpoint index (c : ascii) (s : string) : option nat :=
  match s with
  | EmptyString => None
  | String a s' => if Ascii.eqb a c then Some O else S <$> index c s'
  end.

Fixpoint str_take (n : nat) (s : string) : string :=
  match n, s with
  | S k, String c s' => String c (str_take k s')
  | _, _ => EmptyString
  end.

Fixpoint str_drop (n : nat) (s : string) : string :=
  match n, s with
  | S k, String _ s' => str_drop k s'
  | _, _ => s
  end.

(** [s[i:j]] for indices that are not negative. *)
Definition slice (i j : nat) (s : string) : string :=
  str_take (j - i) (str_drop i s).

(** *** Numbers *)

(** [str(n)] for an [int]. *)
Definition int_str (n : Z) : string := NilZero.string_of_int (Z.to_int n).

(** A [float] that is a finite decimal: [Dec m k] is the double nearest
    to [m / 10^k].  The literals of the program and the coordinates a
    geocoder prints have at most 15 significant digits, where a double
    and its shortest decimal determine each other. *)
Inductive pyfloat := Dec (mant : Z) (scale : nat).

Fixpoint zeros (n : nat) : string :=
  match n with
  | O => EmptyString
  | S k => String "0" (zeros k)
  end.

(** The digits without the zeros at the end. *)
Fixpoint rstrip_zeros (s : string) : string :=
  match s with
  | EmptyString => EmptyString
  | String c s' =>
      let r := rstrip_zeros s' in
      if Ascii.eqb c "0" && is_empty r then EmptyString else String c r
  end.

Definition exponent_str (e : Z) : string :=
  let d := int_str (Z.abs e) in
  (if e <? 0 then "-" else "+") +:+
  (if (String.length d <? 2)%nat then "0" +:+ d else d).

(** [repr(x)], which is also [str(x)] and the default format, for a float:
    the shortest decimal, in positional notation when the decimal point
    falls within [-4 < decpt <= 16] and in exponent notation otherwise. *)
Definition float_str (x : pyfloat) : string :=
  let '(Dec m k) := x in
  if m =? 0 then "0.0"
  else
    let all := int_str (Z.abs m) in
    let ds := rstrip_zeros all in
    let n := String.length ds in
    let decpt := Z.of_nat (String.length all) - Z.of_nat k in
    let body :=
      if (-4 <? decpt) && (decpt <=? 16) then
        if decpt <=? 0 then "0." +:+ zeros (Z.to_nat (- decpt)) +:+ ds
        else if decpt <? Z.of_nat n
             then str_take (Z.to_nat decpt) ds +:+ "." +:+
                  str_drop (Z.to_nat decpt) ds
             else ds +:+ zeros (Z.to_nat decpt - n) +:+ ".0"
      else
        str_take 1 ds +:+
        (if (1 <? n)%nat then "." +:+ str_drop 1 ds else EmptyString) +:+
        "e" +:+ exponent_str (decpt - 1)
    in (if m <? 0 then "-" else EmptyString) +:+ body.

(** *** Percent-encoding *)

Definition hex_digit (upper : bool) (n : nat) : ascii :=
  if (n <? 10)%nat then ascii_of_nat (48 + n)
  else ascii_of_nat ((if upper then 55 else 87) + n).

Definition hex2 (upper : bool) (n : nat) : string :=
  String (hex_digit upper (n / 16))
         (String (hex_digit upper (n mod 16)) EmptyString).

Definition is_alnum (n : nat) : bool :=
  ((48 <=? n) && (n <=? 57) || (65 <=? n) && (n <=? 90)
   || (97 <=? n) && (n <=? 122))%nat.

(** The characters [quote] leaves alone: the unreserved ones, [_.-~],
    and its default [safe] character, the slash. *)
Definition quote_safe (c : ascii) : bool :=
  let n := code c in
  is_alnum n || (n =? 95)%nat || (n =? 46)%nat || (n =? 45)%nat
  || (n =? 126)%nat || (n =? 47)%nat.

Definition percent (n : nat) : string := String "%" (hex2 true n).

(** One code point: itself when safe, else the bytes of its UTF-8
    encoding (one below 128, two from 128 to 255), each as [%XX]. *)
Definition quote_char (c : ascii) : string :=
  let n := code c in
  if quote_safe c then String c EmptyString
  else if (n <? 128)%nat then percent n
  else percent (192 + n / 64) +:+ percent (128 + n mod 64).

(** [urllib.parse.quote(s)] *)
Fixpoint quote (s : string) : string :=
  match s with
  | EmptyString => EmptyString
  | String c s' => quote_char c +:+ quote s'
  end.

(** *** [str.format] *)

(** A keyword argument of [format]. *)
Inductive fmtarg :=
| FStr (s : string)
| FInt (n : Z)
| FFloat (x : pyfloat).

(** The default format of a value: [str(v)]. *)
Definition format_value (v : fmtarg) : string :=
  match v with
  | FStr s => s
  | FInt n => int_str n
  | FFloat x => float_str x
  end.

Fixpoint assoc {A} (k : string) (l : list (string * A)) : option A :=
  match l with
  | [] => None
  | (k', v) :: l' => if String.eqb k' k then Some v else assoc k l'
  end.

(** [t.format(k1=v1, ...)] for replacement fields that are plain names:
    [field] holds the name being read inside braces.  A doubled brace is
    a literal brace; a name without argument is a [KeyError]. *)
Fixpoint format_from (kwargs : list (string * fmtarg)) (t : string)
    (field : option string) : pyresult string :=
  match t with
  | EmptyString =>
      match field with
      | None => Ok EmptyString
      | Some _ => Err (ValueError "expected '}' before end of string")
      end
  | String c t' =>
      match field with
      | Some f =>
          if Ascii.eqb c "}" then
            match assoc f kwargs with
            | Some v =>
                rbind (format_from kwargs t' None)
                      (fun rest => Ok (format_value v +:+ rest))
            | None => Err OtherError
            end
          else format_from kwargs t' (Some (f +:+ String c EmptyString))
      | None =>
          if Ascii.eqb c "{" then
            match t' with
            | String "{" t'' =>
                rbind (format_from kwargs t'' None)
                      (fun rest => Ok (String "{" rest))
            | _ => format_from kwargs t' (Some EmptyString)
            end
          else if Ascii.eqb c "}" then
            match t' with
            | String "}" t'' =>
                rbind (format_from kwargs t'' None)
                      (fun rest => Ok (String "}" rest))
            | _ => Err (ValueError "Single '}' encountered in format string")
            end
          else rbind (format_from kwargs t' None)
                     (fun rest => Ok (String c rest))
      end
  end.

Definition format (t : string) (kwargs : list (string * fmtarg))
  : pyresult string :=
  format_from kwargs t None.

(** *** Decoded JSON documents *)

(** What [resp.json()] returns.  A [JObj] is a [dict]: its keys are
    pairwise distinct in a decoded document, and a key is read at its
    first binding. *)
#[warnings="-register-all"]
Inductive JSON :=
| JNull
| JBool (b : bool)
| JNum (n : Z)
| JFloat (x : pyfloat)
| JStr (s : string)
| JArr (l : list JSON)
| JObj (kv : list (string * JSON)).

(** [bool(v)] *)
Definition truthy (v : JSON) : bool :=
  match v with
  | JNull => false
  | JBool b => b
  | JNum n => negb (n =? 0)
  | JFloat (Dec m _) => negb (m =? 0)
  | JStr s => negb (is_empty s)
  | JArr l => match l with [] => false | _ => true end
  | JObj kv => match kv with [] => false | _ => true end
  end.

(** [d.get(k, default)]: only a [dict] has the method. *)
Definition get (d : JSON) (k : string) (default : JSON) : pyresult JSON :=
  match d with
  | JObj kv => Ok (match assoc k kv with Some v => v | None => default end)
  | _ => Err OtherError
  end.

(** [d[k]] for a string key: a [KeyError] on a [dict] without it, a
    [TypeError] on anything else. *)
Definition getitem (d : JSON) (k : string) : pyresult JSON :=
  match d with
  | JObj kv => match assoc k kv with Some v => Ok v | None => Err OtherError end
  | _ => Err OtherError
  end.

Fixpoint chars (s : string) : list JSON :=
  match s with
  | EmptyString => []
  | String c s' => JStr (String c EmptyString) :: chars s'
  end.

(** [iter(v)]: the elements of a list, the characters of a string, the
    keys of a dict; nothing else can be iterated. *)
Definition iter (v : JSON) : pyresult (list JSON) :=
  match v with
  | JArr l => Ok l
  | JStr s => Ok (chars s)
  | JObj kv => Ok (map (fun p => JStr (fst p)) kv)
  | _ => Err OtherError
  end.

(** [v[0]] *)
Definition first_item (v : JSON) : pyresult JSON :=
  match v with
  | JArr (x :: _) => Ok x
  | JStr (String c _) => Ok (JStr (String c EmptyString))
  | _ => Err OtherError
  end.

(** [v[:n]]: a string and a list can be sliced. *)
Definition slice_to (n : nat) (v : JSON) : pyresult JSON :=
  match v with
  | JStr s => Ok (JStr (str_take n s))
  | JArr l => Ok (JArr (take n l))
  | _ => Err OtherError
  end.

(** [v.lower()]: only a [str] has the method. *)
Definition lower_of (v : JSON) : pyresult string :=
  match v with
  | JStr s => Ok (lower s)
  | _ => Err OtherError
  end.

(** [v == s] for a string [s]. *)
Definition eq_str (v : JSON) (s : string) : bool :=
  match v with
  | JStr t => String.eqb t s
  | _ => false
  end.

(** [next((x for x in xs if p(x)), default)] once [iter] has given [xs]:
    the first element that satisfies [p]; an element on which [p] raises
    before one is found raises. *)
Fixpoint next_where (p : JSON -> pyresult bool) (xs : list JSON)
    (default : JSON) : pyresult JSON :=
  match xs with
  | [] => Ok default
  | x :: xs' =>
      rbind (p x) (fun b => if b then Ok x else next_where p xs' default)
  end.

(** *** [repr] and [str] *)

Definition backslash : ascii := ascii_of_nat 92.
Definition squote : ascii := ascii_of_nat 39.
Definition dquote : ascii := ascii_of_nat 34.

Definition repr_char (q c : ascii) : string :=
  let n := code c in
  if Ascii.eqb c q || Ascii.eqb c backslash
  then String backslash (String c EmptyString)
  else if (n =? 9)%nat then String backslash "t"
  else if (n =? 10)%nat then String backslash "n"
  else if (n =? 13)%nat then String backslash "r"
  else if ((n <? 32) || (n =? 127))%nat
       then String backslash (String "x" (hex2 false n))
  else if (n <? 127)%nat then String c EmptyString
  else if ((n <=? 160) || (n =? 173))%nat
       then String backslash (String "x" (hex2 false n))
  else String c EmptyString.

Fixpoint repr_chars (q : ascii) (s : string) : string :=
  match s with
  | EmptyString => EmptyString
  | String c s' => repr_char q c +:+ repr_chars q s'
  end.

Definition has_char (c : ascii) (s : string) : bool :=
  match index c s with Some _ => true | None => false end.

(** [repr(s)] for a string: in single quotes, unless it holds a single
    quote and no double quote. *)
Definition repr_str (s : string) : string :=
  let q := if has_char squote s && negb (has_char dquote s)
           then dquote else squote in
  String q (repr_chars q s +:+ String q EmptyString).

(** [repr(v)] *)
Fixpoint repr (v : JSON) : string :=
  match v with
  | JNull => "None"
  | JBool b => if b then "True" else "False"
  | JNum n => int_str n
  | JFloat x => float_str x
  | JStr s => repr_str s
  | JArr l => "[" +:+ join ", " (map repr l) +:+ "]"
  | JObj kv =>
      "{" +:+
      join ", " (map (fun p => match p with
                               | (k, x) => repr_str k +:+ ": " +:+ repr x
                               end) kv) +:+
      "}"
  end.

(** [str(v)], which an f-string applies to a field without format. *)
Definition str (v : JSON) : string :=
  match v with
  | JStr s => s
  | _ => repr v
  end.

(** The integers every one of which is a float: those of at most 53
    bits. *)
Definition exact_int (n : Z) : bool := Z.abs n <=? 2 ^ 53.

(** The integers whose nearest float is finite; [float] of any other
    raises [OverflowError]. *)
Definition float_range (n : Z) : bool := Z.abs n <? 2 ^ 1024 - 2 ^ 970.

(** [float(v)]; [float_of_str] is Python's reading of a string as a
    float, [None] where it raises [ValueError].  An [int] of at most 53
    bits is converted exactly; a larger one is rounded to the nearest
    float, the one its decimal writing reads as, and raises
    [OverflowError] when that float is not finite. *)
Definition to_float (float_of_str : string -> option pyfloat) (v : JSON)
  : pyresult pyfloat :=
  match v with
  | JStr s =>
      match float_of_str s with
      | Some x => Ok x
      | None => Err (ValueError ("could not convert string to float: "
                                 +:+ repr_str s))
      end
  | JNum n =>
      if exact_int n then Ok (Dec n 0)
      else if float_range n then
        match float_of_str (int_str n) with
        | Some x => Ok x
        | None => Err OtherError
        end
      else Err OtherError
  | JFloat x => Ok x
  | JBool b => Ok (Dec (if b then 1 else 0) 0)
  | _ => Err OtherError
  end.

(** [s.index(c)], raising where the character is absent. *)
Definition index_or_raise (c : ascii) (s : string) : pyresult nat :=
  match index c s with
  | Some i => Ok i
  | None => Err (ValueError "substring not found")
  end.

(** [d[k] = v] on a dict kept in insertion order. *)
Fixpoint dict_set {A} (k : string) (v : A) (d : list (string * A))
  : list (string * A) :=
  match d with
  | [] => [(k, v)]
  | (k', v') :: d' =>
      if String.eqb k' k then (k, v) :: d' else (k', v') :: dict_set k v d'
  end.

End Py.

(** ** The network *)

Module Net.
Import Py.

(** One [requests.get(url, params=..., headers=..., timeout=...)]. *)
Record Request := {
  url : string;
  params : list (string * JSON);
  headers : list (string * string);
  timeout : Z
}.

(** The ways [requests.get] followed by [raise_for_status] raises: each
    is a subclass of [requests.RequestException]. *)
Inductive request_error :=
| Timeout
| ConnectionFailure
| BadStatus (status : Z).

(** What a request comes to: an error of the transport, or the decoded
    body of the response.  A response whose body is no JSON document is
    outside the model. *)
Inductive http_outcome :=
| Failed (e : request_error)
| Body (doc : JSON).

(** The services as the program meets them: [respond n r] is the outcome
    of [r] when it is the request number [n]; [issued] lists the requests
    made so far, the oldest first. *)
Record World := {
  respond : nat -> Request -> http_outcome;
  issued : list Request
}.

(** A computation that may use the network and may raise. *)
Definition IO (A : Type) : Type := World -> pyresult A * World.

Definition ret {A} (a : A) : IO A := fun w => (Ok a, w).

Definition raise {A} (e : exn) : IO A := fun w => (Err e, w).

Definition bind {A B} (m : IO A) (k : A -> IO B) : IO B :=
  fun w =>
    match m w with
    | (Ok a, w') => k a w'
    | (Err e, w') => (Err e, w')
    end.

Definition lift {A} (r : pyresult A) : IO A := fun w => (r, w).

(** [try: m except C: h] where [handles e] tells whether [e] is a [C]. *)
Definition try_except {A} (m : IO A) (handles : exn -> bool) (h : IO A)
  : IO A :=
  fun w =>
    match m w with
    | (Ok a, w') => (Ok a, w')
    | (Err e, w') => if handles e then h w' else (Err e, w')
    end.

(** The world once [r] has been issued. *)
Definition sent (r : Request) (w : World) : World :=
  {| respond := respond w; issued := issued w ++ [r] |}.

(** The outcome of [r] when it is issued next. *)
Definition outcome (w : World) (r : Request) : http_outcome :=
  respond w (length (issued w)) r.

(** [resp = requests.get(...); resp.raise_for_status(); resp.json()] *)
Definition get_json (r : Request) : IO JSON :=
  fun w =>
    match outcome w r with
    | Failed _ => (Err RequestException, sent r w)
    | Body doc => (Ok doc, sent r w)
    end.

End Net.

Declare Scope io_scope.
Delimit Scope io_scope with io.
Notation "x <- m ;; k" := (Net.bind m (fun x => k))
  (at level 100, m at next level, right associativity) : io_scope.
Notation "x <~ m ;; k" := (Py.rbind m (fun x => k))
  (at level 100, m at next level, right associativity) : io_scope.

(** ** Values both programs build *)

(** A doctor to look up: the [Doctor] dataclass of the command-line tool,
    the dict with the keys [name] and [specialty] of the web form. *)
Module Doctor.
Record t := mk {
  name : string;
  specialty : option string
}.
End Doctor.

(** A registry record as it is shown: the dict with these six keys that
    [check_doctor] builds for the command-line tool and that [search_npi]
    builds for the web form. *)
Module Row.
Record t := mk {
  npi : Py.JSON;
  name : string;
  credential : Py.JSON;
  specialty : Py.JSON;
  location : string;
  phone : Py.JSON
}.
End Row.

(** A provider-finder link: the dict with the keys [name] and [url]. *)
Module Link.
Record t := mk {
  name : string;
  url : string
}.
End Link.

(** ** check_doctors.py *)

Module Cli.
Import Py Net.
Local Open Scope io_scope.

Definition NPI_API : string := "https://npiregistry.cms.hhs.gov/api/".

Definition BCBSTX_SEARCH_URLS : list (string * Link.t) :=
  [ ("blue_advantage_hmo",
     Link.mk "Blue Advantage HMO"
       "https://my.providerfinderonline.com/search/name/{query}?ci=tx-blueadvantage-retail&network_id=1000128&geo_location={lat},{lon}&locale=en&corp_code=TX&radius={radius}");
    ("my_blue_health",
     Link.mk "My Blue Health"
       "https://my.providerfinderonline.com/search/name/{query}?ci=tx-myblue-health&network_id=240000127&geo_location={lat},{lon}&locale=en&corp_code=TX&radius={radius}") ].

(** The entries of [TEXAS_LOCATIONS], as the literal lists them. *)
Definition TEXAS_LOCATIONS_items : list (string * (pyfloat * pyfloat)) :=
  [ ("dallas", (Dec 327767 4, Dec (-967970) 4));
    ("fort worth", (Dec 327555 4, Dec (-973308) 4));
    ("houston", (Dec 297604 4, Dec (-953698) 4));
    ("austin", (Dec 302672 4, Dec (-977431) 4));
    ("san antonio", (Dec 294241 4, Dec (-984936) 4));
    ("plano", (Dec 330198 4, Dec (-966989) 4));
    ("arlington", (Dec 327357 4, Dec (-971081) 4));
    ("irving", (Dec 328140 4, Dec (-969489) 4));
    ("frisco", (Dec 331507 4, Dec (-968236) 4));
    ("mckinney", (Dec 331972 4, Dec (-966397) 4));
    ("denton", (Dec 332148 4, Dec (-971331) 4));
    ("garland", (Dec 329126 4, Dec (-966389) 4));
    ("richardson", (Dec 329483 4, Dec (-967299) 4));
    ("carrollton", (Dec 329537 4, Dec (-968903) 4));
    ("lewisville", (Dec 330462 4, Dec (-969942) 4));
    ("el paso", (Dec 317619 4, Dec (-1064850) 4));
    ("corpus christi", (Dec 278006 4, Dec (-973964) 4));
    ("lubbock", (Dec 335779 4, Dec (-1018552) 4));
    ("amarillo", (Dec 352220 4, Dec (-1018313) 4));
    ("waco", (Dec 315493 4, Dec (-971467) 4));
    ("midland", (Dec 319973 4, Dec (-1020779) 4));
    ("odessa", (Dec 318457 4, Dec (-1023676) 4));
    ("beaumont", (Dec 300802 4, Dec (-941266) 4));
    ("tyler", (Dec 323513 4, Dec (-953011) 4));
    ("round rock", (Dec 305083 4, Dec (-976789) 4));
    ("sugar land", (Dec 296197 4, Dec (-956349) 4));
    ("the woodlands", (Dec 301658 4, Dec (-954613) 4));
    ("katy", (Dec 297858 4, Dec (-958245) 4));
    ("pasadena", (Dec 296911 4, Dec (-952091) 4));
    ("mesquite", (Dec 327668 4, Dec (-965992) 4));
    ("75201", (Dec 327872 4, Dec (-967985) 4));
    ("75202", (Dec 327830 4, Dec (-968010) 4));
    ("76102", (Dec 327593 4, Dec (-973283) 4));
    ("77002", (Dec 297545 4, Dec (-953592) 4));
    ("78201", (Dec 294650 4, Dec (-985254) 4));
    ("73301", (Dec 303265 4, Dec (-977713) 4));
    ("78701", (Dec 302711 4, Dec (-977437) 4)) ].

Definition TEXAS_LOCATIONS : gmap string (pyfloat * pyfloat) :=
  list_to_map TEXAS_LOCATIONS_items.

Module NPIResult.
Record t := mk {
  npi : JSON;
  name : string;
  credential : JSON;
  specialty : JSON;
  address : JSON;
  city : JSON;
  state : JSON;
  zip_code : JSON;
  phone : JSON
}.
End NPIResult.

(** The result dict of [check_doctor]. *)
Module Bundle.
Record t := mk {
  doctor : string;
  specialty_filter : option string;
  npi_found : bool;
  npi_count : nat;
  npi_results : list Row.t;
  bcbstx_urls : list (string * Link.t)
}.
End Bundle.

(** *** [geocode_location] *)

(** Lines 97-100: the key the table is searched for. *)
Definition normalize_location (location : string) : string :=
  let loc_lower := strip (lower location) in
  let loc_lower :=
    replace " tx" EmptyString
      (replace ",tx" EmptyString (replace ", tx" EmptyString loc_lower)) in
  let loc_lower :=
    replace " texas" EmptyString
      (replace ",texas" EmptyString
         (replace ", texas" EmptyString loc_lower)) in
  strip loc_lower.

(** Lines 105-106: the text sent to the geocoder. *)
Definition geocoder_query (location : string) : string :=
  if negb (contains "tx" (lower location))
     && negb (contains "texas" (lower location))
  then location +:+ ", TX" else location.

Definition geocoder_request (q : string) : Request :=
  {| url := "https://nominatim.openstreetmap.org/search";
     params := [("q", JStr q); ("format", JStr "json");
                ("limit", JNum 1); ("countrycodes", JStr "us")];
     headers := [("User-Agent", "Doctor-Network-Checker/1.0")];
     timeout := 10 |}.

(** The message of the [ValueError] of line 121. *)
Definition geocode_error (q : string) : string :=
  "Could not geocode: " +:+ q +:+ ". Use --coords or a major Texas city.".

Section Geocode.

(** Python's reading of a string as a float. *)
Variable float_of_str : string -> option pyfloat.

(** Lines 116-117: [None] when the body is falsy. *)
Definition first_coordinates (results : JSON)
  : pyresult (option (pyfloat * pyfloat)) :=
  if truthy results then
    r0 <~ first_item results;;
    lat_v <~ getitem r0 "lat";;
    lat <~ to_float float_of_str lat_v;;
    r0' <~ first_item results;;
    lon_v <~ getitem r0' "lon";;
    lon <~ to_float float_of_str lon_v;;
    Ok (Some (lat, lon))
  else Ok None.

Definition geocode_location (location : string) : IO (pyfloat * pyfloat) :=
  match TEXAS_LOCATIONS !! normalize_location location with
  | Some c => ret c
  | None =>
      let location := geocoder_query location in
      found <- try_except
                 (results <- get_json (geocoder_request location);;
                  lift (first_coordinates results))
                 is_request_exception
                 (ret None);;
      match found with
      | Some c => ret c
      | None => raise (ValueError (geocode_error location))
      end
  end.

End Geocode.

(** *** [search_npi] *)

(** Lines 133-144: the first and the last name asked of the registry. *)
Definition split_name (name : string) : pyresult (string * string) :=
  let name_parts := strip (replace "Dr" EmptyString
                             (replace "Dr." EmptyString name)) in
  if contains "," name_parts then
    match map strip (split1 "," name_parts) with
    | [last; first] => Ok (first, last)
    | _ => Err (ValueError "wrong number of values to unpack")
    end
  else
    let parts := split_ws name_parts in
    if (2 <=? length parts)%nat
    then Ok (hd EmptyString parts, join " " (tl parts))
    else Ok (EmptyString, name_parts).

(** Lines 146-158. *)
Definition npi_params (first last state : string) (city : option string)
    (limit : Z) : list (string * JSON) :=
  [("version", JStr "2.1"); ("limit", JNum limit);
   ("enumeration_type", JStr "NPI-1"); ("state", JStr state)]
  ++ (if is_empty first then [] else [("first_name", JStr first)])
  ++ (if is_empty last then [] else [("last_name", JStr last)])
  ++ match city with
     | Some c => if is_empty c then [] else [("city", JStr c)]
     | None => []
     end.

Definition npi_request (first last state : string) (city : option string)
    (limit : Z) : Request :=
  {| url := NPI_API; params := npi_params first last state city limit;
     headers := []; timeout := 15 |}.

(** Lines 172-175. *)
Definition practice_address (addresses : JSON) : pyresult JSON :=
  candidates <~ iter addresses;;
  default <~ (if truthy addresses then first_item addresses
              else Ok (JObj []));;
  next_where
    (fun a => purpose <~ get a "address_purpose" JNull;;
              Ok (eq_str purpose "LOCATION"))
    candidates default.

(** Lines 178-181. *)
Definition primary_taxonomy (taxonomies : JSON) : pyresult JSON :=
  candidates <~ iter taxonomies;;
  default <~ (if truthy taxonomies then first_item taxonomies
              else Ok (JObj []));;
  next_where
    (fun t => flag <~ get t "primary" JNull;; Ok (truthy flag))
    candidates default.

(** Lines 186-188: whether the record is skipped. *)
Definition filtered_out (specialty : option string) (specialty_name : JSON)
  : pyresult bool :=
  match specialty with
  | Some sp =>
      if is_empty sp then Ok false
      else low <~ lower_of specialty_name;;
           Ok (negb (contains (lower sp) low))
  | None => Ok false
  end.

(** Lines 167-202, one turn of the loop: [None] is [continue]. *)
Definition normalize (specialty : option string) (r : JSON)
  : pyresult (option NPIResult.t) :=
  basic <~ get r "basic" (JObj []);;
  addresses <~ get r "addresses" (JArr []);;
  taxonomies <~ get r "taxonomies" (JArr []);;
  practice_addr <~ practice_address addresses;;
  primary_tax <~ primary_taxonomy taxonomies;;
  specialty_name <~ get primary_tax "desc" (JStr "Unknown");;
  skip <~ filtered_out specialty specialty_name;;
  if skip then Ok None
  else
    number <~ get r "number" (JStr EmptyString);;
    first_name <~ get basic "first_name" (JStr EmptyString);;
    last_name <~ get basic "last_name" (JStr EmptyString);;
    credential <~ get basic "credential" (JStr EmptyString);;
    address_1 <~ get practice_addr "address_1" (JStr EmptyString);;
    city <~ get practice_addr "city" (JStr EmptyString);;
    state <~ get practice_addr "state" (JStr EmptyString);;
    postal_code <~ get practice_addr "postal_code" (JStr EmptyString);;
    zip_code <~ slice_to 5 postal_code;;
    phone <~ get practice_addr "telephone_number" (JStr EmptyString);;
    Ok (Some {| NPIResult.npi := number;
                NPIResult.name := strip (str first_name +:+ " " +:+
                                         str last_name);
                NPIResult.credential := credential;
                NPIResult.specialty := specialty_name;
                NPIResult.address := address_1;
                NPIResult.city := city;
                NPIResult.state := state;
                NPIResult.zip_code := zip_code;
                NPIResult.phone := phone |}).

(** The loop of lines 166-202, [results] being the list built so far. *)
Fixpoint collect (specialty : option string) (rs : list JSON)
    (results : list NPIResult.t) : pyresult (list NPIResult.t) :=
  match rs with
  | [] => Ok results
  | r :: rs' =>
      o <~ normalize specialty r;;
      collect specialty rs'
        (match o with Some x => results ++ [x] | None => results end)
  end.

(** Lines 165-204: the records of a decoded body. *)
Definition records_of (specialty : option string) (data : JSON)
  : pyresult (list NPIResult.t) :=
  listed <~ get data "results" (JArr []);;
  rs <~ iter listed;;
  collect specialty rs [].

(** The warning printed on the standard error stream at line 207 is not
    part of the model. *)
Definition search_npi (name state : string) (city specialty : option string)
    (limit : Z) : IO (list NPIResult.t) :=
  names <- lift (split_name name);;
  try_except
    (data <- get_json (npi_request (fst names) (snd names) state city limit);;
     lift (records_of specialty data))
    is_request_exception
    (ret []).

(** *** [generate_bcbstx_urls] *)

Fixpoint fill_templates (templates : list (string * Link.t))
    (kwargs : list (string * fmtarg)) (urls : list (string * Link.t))
  : pyresult (list (string * Link.t)) :=
  match templates with
  | [] => Ok urls
  | (key, config) :: rest =>
      u <~ format (Link.url config) kwargs;;
      fill_templates rest kwargs
        (dict_set key (Link.mk (Link.name config) u) urls)
  end.

Definition generate_bcbstx_urls (name : string) (lat lon : pyfloat)
    (radius : Z) : pyresult (list (string * Link.t)) :=
  fill_templates BCBSTX_SEARCH_URLS
    [("query", FStr (quote name)); ("lat", FFloat lat);
     ("lon", FFloat lon); ("radius", FInt radius)]
    [].

(** *** [check_doctor] *)

(** Lines 240-247. *)
Definition row_of (r : NPIResult.t) : Row.t :=
  {| Row.npi := NPIResult.npi r;
     Row.name := NPIResult.name r;
     Row.credential := NPIResult.credential r;
     Row.specialty := NPIResult.specialty r;
     Row.location := str (NPIResult.city r) +:+ ", " +:+
                     str (NPIResult.state r) +:+ " " +:+
                     str (NPIResult.zip_code r);
     Row.phone := NPIResult.phone r |}.

Definition check_doctor (doctor : Doctor.t) (lat lon : pyfloat) (radius : Z)
    (city : option string) : IO Bundle.t :=
  npi_results <- search_npi (Doctor.name doctor) "TX" city
                   (Doctor.specialty doctor) 10;;
  bcbstx_urls <- lift (generate_bcbstx_urls (Doctor.name doctor)
                         lat lon radius);;
  ret {| Bundle.doctor := Doctor.name doctor;
         Bundle.specialty_filter := Doctor.specialty doctor;
         Bundle.npi_found := (0 <? length npi_results)%nat;
         Bundle.npi_count := length npi_results;
         Bundle.npi_results := map row_of (take 5 npi_results);
         Bundle.bcbstx_urls := bcbstx_urls |}.

(** *** [parse_doctors] *)

(** The loop of lines 309-318, [doctors] being the list built so far. *)
Fixpoint parse_entries (entries : list string) (doctors : list Doctor.t)
  : pyresult (list Doctor.t) :=
  match entries with
  | [] => Ok doctors
  | entry :: rest =>
      let entry := strip entry in
      if is_empty entry then parse_entries rest doctors
      else if contains "(" entry && contains ")" entry then
        i <~ index_or_raise "(" entry;;
        let name_part := strip (slice 0 i entry) in
        i' <~ index_or_raise "(" entry;;
        j <~ index_or_raise ")" entry;;
        let specialty := strip (slice (i' + 1) j entry) in
        parse_entries rest (doctors ++ [Doctor.mk name_part (Some specialty)])
      else parse_entries rest (doctors ++ [Doctor.mk entry None])
  end.

Definition parse_doctors (doctor_input : string) : pyresult (list Doctor.t) :=
  parse_entries (split "," doctor_input) [].

(** *** [main] *)

(** The loop of lines 409-415, [results] being the list built so far. *)
Fixpoint check_each (doctors : list Doctor.t) (lat lon : pyfloat)
    (radius : Z) (city : option string) (results : list Bundle.t)
  : IO (list Bundle.t) :=
  match doctors with
  | [] => ret results
  | doctor :: rest =>
      result <- check_doctor doctor lat lon radius city;;
      check_each rest lat lon radius city (results ++ [result])
  end.

(** The arguments [argparse] hands over; [file] is the text [f.read()]
    returns for the file named by [--file], [None] without that option. *)
Record Args := {
  doctors : option string;
  file : option string;
  location : option string;
  coords : option string;
  city : option string;
  radius : Z
}.

(** How a run ends: [sys.exit(code)] after a message on the standard
    error stream, or the results handed to the printer. *)
Inductive Outcome :=
| Exit (code : Z) (message : string)
| Report (results : list Bundle.t).

Definition given (o : option string) : option string :=
  match o with
  | Some s => if is_empty s then None else Some s
  | None => None
  end.

Section Main.

Variable float_of_str : string -> option pyfloat.

(** Line 390: [None] is the [ValueError] of a piece that is no float or
    of a number of pieces other than two. *)
Definition parse_coords (c : string) : option (pyfloat * pyfloat) :=
  match split "," c with
  | [a; b] =>
      match float_of_str a, float_of_str b with
      | Some lat, Some lon => Some (lat, lon)
      | _, _ => None
      end
  | _ => None
  end.

(** Lines 388-402: the coordinates, or the message of the exit. *)
Definition resolve (args : Args) : IO (string + pyfloat * pyfloat) :=
  match given (coords args) with
  | Some c =>
      match parse_coords c with
      | Some p => ret (inr p)
      | None => ret (inl "Error: --coords must be 'lat,lon'")
      end
  | None =>
      match given (location args) with
      | Some l =>
          fun w =>
            match geocode_location float_of_str l w with
            | (Ok p, w') => (Ok (inr p), w')
            | (Err (ValueError msg), w') => (Ok (inl ("Error: " +:+ msg)), w')
            | (Err e, w') => (Err e, w')
            end
      | None =>
          match TEXAS_LOCATIONS !! "dallas" with
          | Some p => ret (inr p)
          | None => raise OtherError
          end
      end
  end.

(** Lines 376-415, without the printing. *)
Definition main (args : Args) : IO Outcome :=
  parsed <- lift (match given (doctors args) with
                  | Some d => parse_doctors d
                  | None =>
                      match file args with
                      | Some text =>
                          parse_doctors (replace (String (ascii_of_nat 10)
                                                    EmptyString) "," text)
                      | None => Err OtherError
                      end
                  end);;
  match parsed with
  | [] => ret (Exit 1 "Error: No doctors specified")
  | _ =>
      where_ <- resolve args;;
      match where_ with
      | inl message => ret (Exit 1 message)
      | inr (lat, lon) =>
          results <- check_each parsed lat lon (radius args) (city args) [];;
          ret (Report results)
      end
  end.

End Main.

End Cli.

(** ** app.py *)

Module Web.
Import Py Net.
Local Open Scope io_scope.

Definition NPI_API : string := "https://npiregistry.cms.hhs.gov/api/".

Definition BCBSTX_SEARCH_URLS : list (string * Link.t) :=
  [
    ("blue_advantage_hmo",
     Link.mk "Blue Advantage HMO"
       "https://my.providerfinderonline.com/search/name/{query}?ci=tx-blueadvantage-retail&network_id=1000128&geo_location={lat},{lon}&locale=en&corp_code=TX&radius={radius}");
    ("my_blue_health",
     Link.mk "My Blue Health"
       "https://my.providerfinderonline.com/search/name/{query}?ci=tx-myblue-health&network_id=240000127&geo_location={lat},{lon}&locale=en&corp_code=TX&radius={radius}") ].

Definition UHC_SEARCH_URLS : list (string * Link.t) :=
  [
    ("tx_individual_exchange",
     Link.mk "UHC TX Individual Exchange"
       "https://connect.werally.com/guest/eyJwbGFuTmFtZSI6IlRYIEluZGl2aWR1YWwgRXhjaGFuZ2UgQmVuZWZpdCBQbGFuIiwiZGVsc3lzIjoiOTA4IiwiY292ZXJhZ2VUeXBlIjoibWVkaWNhbCIsInBhcnRuZXJJZCI6InVoYyIsImxhbmd1YWdlIjoiZW4iLCJzaG93Q29zdHMiOnRydWUsImZpcHNDb2RlIjoiNDgifQMQFY_1U6GK3dWzJO0xysxZD0H-Ei_AJ0Wm_n0zlgcUI?planYear=2026");
    ("tx_kelsey_seybold",
     Link.mk "UHC TX Kelsey-Seybold"
       "https://connect.werally.com/guest/eyJwbGFuTmFtZSI6IlRYIEtlbHNleS1TZXlib2xkIEluZGl2aWR1YWwgRXhjaGFuZ2UgQmVuZWZpdCBQbGFuIiwiZGVsc3lzIjoiOTMzIiwiY292ZXJhZ2VUeXBlIjoibWVkaWNhbCIsInBhcnRuZXJJZCI6InVoYyIsImxhbmd1YWdlIjoiZW4iLCJzaG93Q29zdHMiOnRydWUsImZpcHNDb2RlIjoiNDgifQXmvT5Dh8azZlM00ptmfLp0BrlP0yAn-7TQUdErUzIbs?planYear=2026");
    ("tx_sanitas_anchor",
     Link.mk "UHC TX Sanitas Anchor"
       "https://connect.werally.com/guest/eyJwbGFuTmFtZSI6IlRYIFNhbml0YXMgQW5jaG9yIEluZGl2aWR1YWwgRXhjaGFuZ2UgQmVuZWZpdCIsImRlbHN5cyI6Ijk0NiIsImNvdmVyYWdlVHlwZSI6Im1lZGljYWwiLCJwYXJ0bmVySWQiOiJ1aGMuZXhjaGFuZ2UiLCJsYW5ndWFnZSI6ImVuIiwic2hvd0Nvc3RzIjp0cnVlLCJmaXBzQ29kZSI6IjQ4In0B_6Q323L9wHzkAf22cjU43lZYKLoyfNzTYw8nrMBL04?planYear=2026") ].

(** The entries of [TEXAS_LOCATIONS], as the literal lists them. *)
Definition TEXAS_LOCATIONS_items : list (string * (pyfloat * pyfloat)) :=
  [
    ("dallas", (Dec 327767 4, Dec (-967970) 4));
    ("fort worth", (Dec 327555 4, Dec (-973308) 4));
    ("houston", (Dec 297604 4, Dec (-953698) 4));
    ("austin", (Dec 302672 4, Dec (-977431) 4));
    ("san antonio", (Dec 294241 4, Dec (-984936) 4));
    ("plano", (Dec 330198 4, Dec (-966989) 4));
    ("arlington", (Dec 327357 4, Dec (-971081) 4));
    ("irving", (Dec 328140 4, Dec (-969489) 4));
    ("frisco", (Dec 331507 4, Dec (-968236) 4));
    ("mckinney", (Dec 331972 4, Dec (-966397) 4));
    ("denton", (Dec 332148 4, Dec (-971331) 4));
    ("richardson", (Dec 329483 4, Dec (-967299) 4)) ].

Definition TEXAS_LOCATIONS : gmap string (pyfloat * pyfloat) :=
  list_to_map TEXAS_LOCATIONS_items.

(** The result dict of [search]. *)
Module Bundle.
Record t := mk {
  doctor : string;
  specialty_filter : option string;
  npi_found : bool;
  npi_count : nat;
  npi_results : list Row.t;
  bcbstx_urls : list (string * Link.t);
  uhc_urls : list (string * Link.t)
}.
End Bundle.

(** *** [search_npi] *)

(** The name splitting at the head of [search_npi]. *)
Definition split_name (name : string) : pyresult (string * string) :=
  let name_parts := strip (replace "Dr" EmptyString
                             (replace "Dr." EmptyString name)) in
  if contains "," name_parts then
    match map strip (split1 "," name_parts) with
    | [last; first] => Ok (first, last)
    | _ => Err (ValueError "wrong number of values to unpack")
    end
  else
    let parts := split_ws name_parts in
    if (2 <=? length parts)%nat
    then Ok (hd EmptyString parts, join " " (tl parts))
    else Ok (EmptyString, name_parts).

Definition npi_params (first last state : string) (city : option string)
    (limit : Z) : list (string * JSON) :=
  [("version", JStr "2.1"); ("limit", JNum limit);
   ("enumeration_type", JStr "NPI-1"); ("state", JStr state)]
  ++ (if is_empty first then [] else [("first_name", JStr first)])
  ++ (if is_empty last then [] else [("last_name", JStr last)])
  ++ match city with
     | Some c => if is_empty c then [] else [("city", JStr c)]
     | None => []
     end.

Definition npi_request (first last state : string) (city : option string)
    (limit : Z) : Request :=
  {| url := NPI_API; params := npi_params first last state city limit;
     headers := []; timeout := 15 |}.

Definition practice_address (addresses : JSON) : pyresult JSON :=
  candidates <~ iter addresses;;
  default <~ (if truthy addresses then first_item addresses
              else Ok (JObj []));;
  next_where
    (fun a => purpose <~ get a "address_purpose" JNull;;
              Ok (eq_str purpose "LOCATION"))
    candidates default.

Definition primary_taxonomy (taxonomies : JSON) : pyresult JSON :=
  candidates <~ iter taxonomies;;
  default <~ (if truthy taxonomies then first_item taxonomies
              else Ok (JObj []));;
  next_where
    (fun t => flag <~ get t "primary" JNull;; Ok (truthy flag))
    candidates default.

(** The test before [continue]: [specialty and ... not in ...]. *)
Definition filtered_out (specialty : option string) (specialty_name : JSON)
  : pyresult bool :=
  match specialty with
  | Some sp =>
      if is_empty sp then Ok false
      else low <~ lower_of specialty_name;;
           Ok (negb (contains (lower sp) low))
  | None => Ok false
  end.

(** One turn of the loop over the records: [None] is [continue]. *)
Definition normalize (specialty : option string) (r : JSON)
  : pyresult (option Row.t) :=
  basic <~ get r "basic" (JObj []);;
  addresses <~ get r "addresses" (JArr []);;
  taxonomies <~ get r "taxonomies" (JArr []);;
  practice_addr <~ practice_address addresses;;
  primary_tax <~ primary_taxonomy taxonomies;;
  specialty_name <~ get primary_tax "desc" (JStr "Unknown");;
  skip <~ filtered_out specialty specialty_name;;
  if skip then Ok None
  else
    number <~ get r "number" (JStr EmptyString);;
    first_name <~ get basic "first_name" (JStr EmptyString);;
    last_name <~ get basic "last_name" (JStr EmptyString);;
    credential <~ get basic "credential" (JStr EmptyString);;
    city <~ get practice_addr "city" (JStr EmptyString);;
    state <~ get practice_addr "state" (JStr EmptyString);;
    postal_code <~ get practice_addr "postal_code" (JStr EmptyString);;
    zip_code <~ slice_to 5 postal_code;;
    phone <~ get practice_addr "telephone_number" (JStr EmptyString);;
    Ok (Some {| Row.npi := number;
                Row.name := strip (str first_name +:+ " " +:+ str last_name);
                Row.credential := credential;
                Row.specialty := specialty_name;
                Row.location := str city +:+ ", " +:+ str state +:+ " " +:+
                                str zip_code;
                Row.phone := phone |}).

Fixpoint collect (specialty : option string) (rs : list JSON)
    (results : list Row.t) : pyresult (list Row.t) :=
  match rs with
  | [] => Ok results
  | r :: rs' =>
      o <~ normalize specialty r;;
      collect specialty rs'
        (match o with Some x => results ++ [x] | None => results end)
  end.

Definition records_of (specialty : option string) (data : JSON)
  : pyresult (list Row.t) :=
  listed <~ get data "results" (JArr []);;
  rs <~ iter listed;;
  collect specialty rs [].

(** [except Exception] handles every exception of the model. *)
Definition search_npi (name state : string) (city specialty : option string)
    (limit : Z) : IO (list Row.t) :=
  names <- lift (split_name name);;
  try_except
    (data <- get_json (npi_request (fst names) (snd names) state city limit);;
     lift (records_of specialty data))
    (fun _ => true)
    (ret []).

(** *** The link generators *)

Fixpoint fill_templates (templates : list (string * Link.t))
    (kwargs : list (string * fmtarg)) (urls : list (string * Link.t))
  : pyresult (list (string * Link.t)) :=
  match templates with
  | [] => Ok urls
  | (key, config) :: rest =>
      u <~ format (Link.url config) kwargs;;
      fill_templates rest kwargs
        (dict_set key (Link.mk (Link.name config) u) urls)
  end.

Definition generate_bcbstx_urls (name : string) (lat lon : pyfloat)
    (radius : Z) : pyresult (list (string * Link.t)) :=
  fill_templates BCBSTX_SEARCH_URLS
    [("query", FStr (quote name)); ("lat", FFloat lat);
     ("lon", FFloat lon); ("radius", FInt radius)]
    [].

Fixpoint copy_links (configs urls : list (string * Link.t))
  : list (string * Link.t) :=
  match configs with
  | [] => urls
  | (key, config) :: rest =>
      copy_links rest
        (dict_set key (Link.mk (Link.name config) (Link.url config)) urls)
  end.

Definition generate_uhc_urls : list (string * Link.t) :=
  copy_links UHC_SEARCH_URLS [].

(** *** [parse_doctors] *)

Fixpoint parse_entries (entries : list string) (doctors : list Doctor.t)
  : pyresult (list Doctor.t) :=
  match entries with
  | [] => Ok doctors
  | entry :: rest =>
      let entry := strip entry in
      if is_empty entry then parse_entries rest doctors
      else if contains "(" entry && contains ")" entry then
        i <~ index_or_raise "(" entry;;
        let name_part := strip (slice 0 i entry) in
        i' <~ index_or_raise "(" entry;;
        j <~ index_or_raise ")" entry;;
        let specialty := strip (slice (i' + 1) j entry) in
        parse_entries rest (doctors ++ [Doctor.mk name_part (Some specialty)])
      else parse_entries rest (doctors ++ [Doctor.mk entry None])
  end.

Definition parse_doctors (doctor_input : string) : pyresult (list Doctor.t) :=
  parse_entries (split "," doctor_input) [].

(** *** [search] *)

(** The query string of [GET /search]: [None] for an absent parameter. *)
Record Query := {
  doctors : option string;
  location : option string;
  radius : option string;
  city : option string
}.

(** The body of the loop of [search]. *)
Definition search_one (doctor : Doctor.t) (lat lon : pyfloat) (radius : Z)
    (city : option string) : IO Bundle.t :=
  npi_results <- search_npi (Doctor.name doctor) "TX" city
                   (Doctor.specialty doctor) 10;;
  bcbstx_urls <- lift (generate_bcbstx_urls (Doctor.name doctor)
                         lat lon radius);;
  let uhc_urls := generate_uhc_urls in
  ret {| Bundle.doctor := Doctor.name doctor;
         Bundle.specialty_filter := Doctor.specialty doctor;
         Bundle.npi_found := (0 <? length npi_results)%nat;
         Bundle.npi_count := length npi_results;
         Bundle.npi_results := take 5 npi_results;
         Bundle.bcbstx_urls := bcbstx_urls;
         Bundle.uhc_urls := uhc_urls |}.

(** The loop of [search], [results] being the list built so far. *)
Fixpoint search_each (doctors : list Doctor.t) (lat lon : pyfloat)
    (radius : Z) (city : option string) (results : list Bundle.t)
  : IO (list Bundle.t) :=
  match doctors with
  | [] => ret results
  | doctor :: rest =>
      result <- search_one doctor lat lon radius city;;
      search_each rest lat lon radius city (results ++ [result])
  end.

(** The [city] parameter, trimmed; [None] when it is absent or blank. *)
Definition given_city (c : option string) : option string :=
  let s := strip (default EmptyString c) in
  if is_empty s then None else Some s.

Section Search.

(** Python's reading of a string as an int, [None] where it raises
    [ValueError]. *)
Variable int_of_str : string -> option Z.

(** [int(request.args.get("radius", 25))] *)
Definition radius_of (q : Query) : pyresult Z :=
  match radius q with
  | Some s =>
      match int_of_str s with
      | Some n => Ok n
      | None => Err (ValueError ("invalid literal for int() with base 10: "
                                 +:+ repr_str s))
      end
  | None => Ok 25
  end.

(** [TEXAS_LOCATIONS.get(location, TEXAS_LOCATIONS["dallas"])] *)
Definition coordinates_of (location : string)
  : pyresult (pyfloat * pyfloat) :=
  match TEXAS_LOCATIONS !! "dallas" with
  | Some dallas =>
      Ok (match TEXAS_LOCATIONS !! location with
          | Some c => c
          | None => dallas
          end)
  | None => Err OtherError
  end.

Definition search (q : Query) : IO (list Bundle.t) :=
  let doctors_input := default EmptyString (doctors q) in
  let location := lower (default "dallas" (location q)) in
  radius <- lift (radius_of q);;
  let city := given_city (city q) in
  where_ <- lift (coordinates_of location);;
  parsed <- lift (parse_doctors doctors_input);;
  search_each parsed (fst where_) (snd where_) radius city [].

End Search.

End Web.

(** * Vocabulary of the properties *)

Module Spec.
Import Py Net.

(** A string that does not start with white space. *)
Definition starts_clean (s : string) : Prop :=
  match s with
  | EmptyString => True
  | String a _ => isspace a = false
  end.

(** The doctor of one trimmed entry that is not empty:
    - without an opening or without a closing parenthesis, the entry is
      the name and there is no specialty;
    - with a first [(] and the first [)] after it, the name is the
      trimmed text before that [(], the specialty the trimmed text
      between the two, and what follows the [)] is dropped. *)
Inductive entry_doctor : string -> Doctor.t -> Prop :=
| entry_plain e :
    has_char "(" e = false \/ has_char ")" e = false ->
    entry_doctor e (Doctor.mk e None)
| entry_pair pre mid post :
    has_char "(" pre = false ->
    has_char ")" pre = false ->
    has_char ")" mid = false ->
    entry_doctor (pre +:+ "(" +:+ mid +:+ ")" +:+ post)
                 (Doctor.mk (strip pre) (Some (strip mid))).

(** An entry whose first [)] stands before its first [(]. *)
Definition closes_first (e : string) : Prop :=
  exists i j, index "(" e = Some i /\ index ")" e = Some j /\ (j < i)%nat.

(** The doctor the loop of [parse_doctors] appends for a trimmed entry. *)
Definition doctor_of (e : string) : Doctor.t :=
  match index "(" e, index ")" e with
  | Some i, Some j =>
      Doctor.mk (strip (str_take i e)) (Some (strip (slice (i + 1) j e)))
  | _, _ => Doctor.mk e None
  end.

(** The trimmed entries of an input that are not empty, in order. *)
Definition entries (input : string) : list string :=
  filter (fun e => e <> EmptyString) (map strip (split "," input)).

(** The first and the last name [search_npi] asks the registry for. *)
Definition names_of (name : string) : string * string :=
  match Cli.split_name name with
  | Ok names => names
  | Err _ => (EmptyString, EmptyString)
  end.

(** The request [search_npi] issues. *)
Definition registry_request (name state : string) (city : option string)
    (limit : Z) : Request :=
  Cli.npi_request (fst (names_of name)) (snd (names_of name)) state city limit.

(** The request issued for a doctor by [check_doctor] and by the loop of
    [search]: state [TX], the default limit of 10. *)
Definition doctor_request (city : option string) (d : Doctor.t) : Request :=
  registry_request (Doctor.name d) "TX" city 10.

(** What [search_npi] of the command-line tool makes of an outcome. *)
Definition cli_answer (specialty : option string) (o : http_outcome)
  : pyresult (list Cli.NPIResult.t) :=
  match o with
  | Failed _ => Ok []
  | Body doc => Cli.records_of specialty doc
  end.

(** What [search_npi] of the web form makes of an outcome. *)
Definition web_answer (specialty : option string) (o : http_outcome)
  : list Row.t :=
  match o with
  | Failed _ => []
  | Body doc =>
      match Web.records_of specialty doc with
      | Ok rows => rows
      | Err _ => []
      end
  end.

(** The world once the requests [rs] have been issued in turn. *)
Fixpoint sent_all (rs : list Request) (w : World) : World :=
  match rs with
  | [] => w
  | r :: rs' => sent_all rs' (sent r w)
  end.

(** A result that raises nothing but the errors of ill-shaped values. *)
Definition plain {A} (r : pyresult A) : Prop :=
  forall e, r = Err e -> e = OtherError.

(** The result bundle of the command-line tool for the doctor [d] whose
    registry lookup returned [found]. *)
Definition cli_bundle (d : Doctor.t) (found : list Cli.NPIResult.t)
    (urls : list (string * Link.t)) : Cli.Bundle.t :=
  {| Cli.Bundle.doctor := Doctor.name d;
     Cli.Bundle.specialty_filter := Doctor.specialty d;
     Cli.Bundle.npi_found := (0 <? length found)%nat;
     Cli.Bundle.npi_count := length found;
     Cli.Bundle.npi_results := map Cli.row_of (take 5 found);
     Cli.Bundle.bcbstx_urls := urls |}.

(** The result bundle of the web form for the doctor [d] whose registry
    lookup returned [found]. *)
Definition web_bundle (d : Doctor.t) (found : list Row.t)
    (urls : list (string * Link.t)) : Web.Bundle.t :=
  {| Web.Bundle.doctor := Doctor.name d;
     Web.Bundle.specialty_filter := Doctor.specialty d;
     Web.Bundle.npi_found := (0 <? length found)%nat;
     Web.Bundle.npi_count := length found;
     Web.Bundle.npi_results := take 5 found;
     Web.Bundle.bcbstx_urls := urls;
     Web.Bundle.uhc_urls := Web.UHC_SEARCH_URLS |}.

(** A bundle of the web form that reports the registry list [found] for
    the doctor [d]: the flag tells whether the list has an element, the
    count is its length, and its first five records are shown. *)
Definition web_reports (d : Doctor.t) (found : list Row.t)
    (b : Web.Bundle.t) : Prop :=
  Web.Bundle.doctor b = Doctor.name d /\
  Web.Bundle.specialty_filter b = Doctor.specialty d /\
  (Web.Bundle.npi_found b = true <-> found <> []) /\
  Web.Bundle.npi_count b = length found /\
  Web.Bundle.npi_results b = take 5 found.

(** The same for a bundle of the command-line tool, which shows each
    record as a row. *)
Definition cli_reports (d : Doctor.t) (found : list Cli.NPIResult.t)
    (b : Cli.Bundle.t) : Prop :=
  Cli.Bundle.doctor b = Doctor.name d /\
  Cli.Bundle.specialty_filter b = Doctor.specialty d /\
  (Cli.Bundle.npi_found b = true <-> found <> []) /\
  Cli.Bundle.npi_count b = length found /\
  Cli.Bundle.npi_results b = map Cli.row_of (take 5 found).

(** The state suffixes a location may end with, and none. *)
Definition state_suffixes : list string :=
  [EmptyString; ", tx"; " tx"; ", texas"; " texas"].

(** Lines 98-100 of [geocode_location]: what is made of the lower-cased,
    trimmed location. *)
Definition without_state (loc_lower : string) : string :=
  strip
    (replace " texas" EmptyString
       (replace ",texas" EmptyString
          (replace ", texas" EmptyString
             (replace " tx" EmptyString
                (replace ",tx" EmptyString
                   (replace ", tx" EmptyString loc_lower)))))).

(** Every key of the table, with any of the suffixes, comes back as the
    key. *)
Definition suffixes_dropped (items : list (string * (pyfloat * pyfloat)))
  : bool :=
  forallb
    (fun item =>
       forallb
         (fun suffix =>
            String.eqb (without_state (fst item +:+ suffix)) (fst item))
         state_suffixes)
    items.

(** Dallas, where the web form falls back. *)
Definition dallas : pyfloat * pyfloat := (Dec 327767 4, Dec (-967970) 4).

(** A world in which every request times out. *)
Definition offline : World :=
  {| respond := fun _ _ => Failed Timeout; issued := [] |}.

(** A registry record with a mailing and a practice address and two
    taxonomies, the second one primary. *)
Definition sample_record (number : string) : JSON :=
  JObj
    [("number", JStr number);
     ("basic", JObj [("first_name", JStr "JANE"); ("last_name", JStr "DOE");
                     ("credential", JStr "MD")]);
     ("addresses",
      JArr [JObj [("address_purpose", JStr "MAILING");
                  ("city", JStr "AUSTIN"); ("state", JStr "TX");
                  ("postal_code", JStr "787011234")];
            JObj [("address_purpose", JStr "LOCATION");
                  ("address_1", JStr "1 MAIN ST");
                  ("city", JStr "DALLAS"); ("state", JStr "TX");
                  ("postal_code", JStr "752011234");
                  ("telephone_number", JStr "214-555-0100")]]);
     ("taxonomies",
      JArr [JObj [("desc", JStr "Internal Medicine"); ("primary", JBool false)];
            JObj [("desc", JStr "Cardiovascular Disease");
                  ("primary", JBool true)]])].

(** A registry body with six records. *)
Definition sample_body : JSON :=
  JObj [("result_count", JNum 6);
        ("results", JArr (map sample_record ["1"; "2"; "3"; "4"; "5"; "6"]))].

(** A world in which the first request is answered by [sample_body], the
    second times out and the later ones find nothing. *)
Definition sample_world : World :=
  {| respond := fun n _ =>
       match n with
       | O => Body sample_body
       | S O => Failed Timeout
       | _ => Body (JObj [("result_count", JNum 0); ("results", JArr [])])
       end;
     issued := [] |}.

(** The same doctor twice, and another one. *)
Definition sample_doctors : list Doctor.t :=
  [Doctor.mk "Jane Doe" None; Doctor.mk "Jane Doe" None;
   Doctor.mk "Dr. John Smith" (Some "Cardiology")].

(** Every character of [s] satisfies [p]. *)
Fixpoint all_chars (p : ascii -> bool) (s : string) : bool :=
  match s with
  | EmptyString => true
  | String c s' => p c && all_chars p s'
  end.

(** The characters of a percent-encoded text: those [quote] leaves
    alone, and the percent sign. *)
Definition encoded_char (c : ascii) : bool :=
  quote_safe c || Ascii.eqb c "%".

(** The bundle of a doctor whose registry lookup found nothing. *)
Definition cli_not_found (d : Doctor.t) (urls : list (string * Link.t))
  : Cli.Bundle.t :=
  {| Cli.Bundle.doctor := Doctor.name d;
     Cli.Bundle.specialty_filter := Doctor.specialty d;
     Cli.Bundle.npi_found := false;
     Cli.Bundle.npi_count := 0;
     Cli.Bundle.npi_results := [];
     Cli.Bundle.bcbstx_urls := urls |}.

Definition web_not_found (d : Doctor.t) (urls : list (string * Link.t))
  : Web.Bundle.t :=
  {| Web.Bundle.doctor := Doctor.name d;
     Web.Bundle.specialty_filter := Doctor.specialty d;
     Web.Bundle.npi_found := false;
     Web.Bundle.npi_count := 0;
     Web.Bundle.npi_results := [];
     Web.Bundle.bcbstx_urls := urls;
     Web.Bundle.uhc_urls := Web.UHC_SEARCH_URLS |}.

(** The body of a registry answer without any match. *)
Definition no_match : JSON :=
  JObj [("result_count", JNum 0); ("results", JArr [])].

(** A decoded JSON object. *)
Definition is_dict (v : JSON) : Prop :=
  match v with JObj _ => True | _ => False end.

(** The value of a key of an object, if it has the key. *)
Definition field (k : string) (v : JSON) : option JSON :=
  match v with JObj kv => assoc k kv | _ => None end.

Definition field_or (dflt : JSON) (k : string) (v : JSON) : JSON :=
  default dflt (field k v).

(** An address whose purpose tag is [LOCATION]. *)
Definition is_location (a : JSON) : Prop :=
  field "address_purpose" a = Some (JStr "LOCATION").

(** A taxonomy flagged primary. *)
Definition is_primary (t : JSON) : Prop :=
  exists v, field "primary" t = Some v /\ truthy v = true.

(** [selected P xs x]: [x] is the first element of [xs] that satisfies
    [P]; or no element does and [x] is the first element; or [xs] is
    empty and [x] is the empty object. *)
Inductive selected (P : JSON -> Prop) : list JSON -> JSON -> Prop :=
| selected_first before x after :
    Forall (fun y => ~ P y) before -> P x ->
    selected P (before ++ x :: after) x
| selected_head x rest :
    Forall (fun y => ~ P y) (x :: rest) ->
    selected P (x :: rest) x
| selected_empty :
    selected P [] (JObj []).

(** The record made of [r] once its practice address [addr] and its
    taxonomy [tax] are selected, [postal] being the postal code of the
    address. *)
Definition normalized (r addr tax : JSON) (postal : string)
  : Cli.NPIResult.t :=
  let basic := field_or (JObj []) "basic" r in
  {| Cli.NPIResult.npi := field_or (JStr EmptyString) "number" r;
     Cli.NPIResult.name :=
       strip (str (field_or (JStr EmptyString) "first_name" basic) +:+ " " +:+
              str (field_or (JStr EmptyString) "last_name" basic));
     Cli.NPIResult.credential := field_or (JStr EmptyString) "credential" basic;
     Cli.NPIResult.specialty := field_or (JStr "Unknown") "desc" tax;
     Cli.NPIResult.address := field_or (JStr EmptyString) "address_1" addr;
     Cli.NPIResult.city := field_or (JStr EmptyString) "city" addr;
     Cli.NPIResult.state := field_or (JStr EmptyString) "state" addr;
     Cli.NPIResult.zip_code := JStr (str_take 5 postal);
     Cli.NPIResult.phone :=
       field_or (JStr EmptyString) "telephone_number" addr |}.

(** A world in which every request is answered by a body that is a list,
    not an object. *)
Definition ill_shaped : World :=
  {| respond := fun _ _ => Body (JArr []); issued := [] |}.

(** A run of the command-line [search_npi] with its records shown as
    rows, to be set against a run of the web form. *)
Definition shown (run : pyresult (list Cli.NPIResult.t) * World)
  : pyresult (list Row.t) * World :=
  (match fst run with
   | Ok found => Ok (map Cli.row_of found)
   | Err e => Err e
   end,
   snd run).

(** The two front ends share one logic, as the specification words it:
    the doctor parsing, the registry search with its location table and
    its error handling, and the generation of the BCBSTX links give the
    same results in both. *)
Definition shared_logic : Prop :=
  (forall input, Web.parse_doctors input = Cli.parse_doctors input) /\
  (forall key, Web.TEXAS_LOCATIONS !! key = Cli.TEXAS_LOCATIONS !! key) /\
  (forall name state city specialty limit w,
      Web.search_npi name state city specialty limit w
      = shown (Cli.search_npi name state city specialty limit w)) /\
  (forall name lat lon radius,
      Web.generate_bcbstx_urls name lat lon radius
      = Cli.generate_bcbstx_urls name lat lon radius).

(** A world in which the registry answers every request with one
    record, whose taxonomy has a null description. *)
Definition null_desc : World :=
  {| respond := fun _ _ =>
       Body (JObj [("result_count", JNum 1);
                   ("results",
                    JArr [JObj [("number", JStr "1234567890");
                                ("taxonomies",
                                 JArr [JObj [("desc", JNull);
                                             ("primary", JBool true)]])]])]);
     issued := [] |}.

(** A doctor with a specialty, and another one. *)
Definition filtered_doctors : list Doctor.t :=
  [Doctor.mk "John Smith" (Some "Cardiology"); Doctor.mk "Jane Doe" None].

(** Every run of either loop returns one bundle per doctor, as the
    specification words it. *)
Definition always_one_bundle_each : Prop :=
  forall doctors lat lon radius city w,
    (exists bundles w',
        Web.search_each doctors lat lon radius city [] w = (Ok bundles, w') /\
        length bundles = length doctors) /\
    (exists bundles w',
        Cli.check_each doctors lat lon radius city [] w = (Ok bundles, w') /\
        length bundles = length doctors).

(** A BCBSTX template once filled in: [ci] and [network] are the two
    constants in which the configured templates differ. *)
Definition bcbstx_url (ci network name : string) (lat lon : pyfloat)
    (radius : Z) : string :=
  "https://my.providerfinderonline.com/search/name/" +:+ quote name +:+
  "?ci=" +:+ ci +:+ "&network_id=" +:+ network +:+
  "&geo_location=" +:+ float_str lat +:+ "," +:+ float_str lon +:+
  "&locale=en&corp_code=TX&radius=" +:+ int_str radius.

Definition bcbstx_links (name : string) (lat lon : pyfloat) (radius : Z)
  : list (string * Link.t) :=
  [ ("blue_advantage_hmo",
     Link.mk "Blue Advantage HMO"
       (bcbstx_url "tx-blueadvantage-retail" "1000128" name lat lon radius));
    ("my_blue_health",
     Link.mk "My Blue Health"
       (bcbstx_url "tx-myblue-health" "240000127" name lat lon radius)) ].

(** A doctor as the parser leaves it: the name and the specialty are
    trimmed and hold no comma; a doctor without specialty has a name
    that is not empty; a doctor with one has no [(] in the name and no
    [)] in the specialty. *)
Definition tidy_doctor (d : Doctor.t) : Prop :=
  strip (Doctor.name d) = Doctor.name d /\
  has_char "," (Doctor.name d) = false /\
  match Doctor.specialty d with
  | None => Doctor.name d <> EmptyString
  | Some sp =>
      strip sp = sp /\ has_char "," sp = false /\
      has_char "(" (Doctor.name d) = false /\ has_char ")" sp = false
  end.

(** The line feed. *)
Definition line_feed : ascii := ascii_of_nat 10.

(** [s] with every character [c] turned into [d]. *)
Fixpoint subst_char (c d : ascii) (s : string) : string :=
  match s with
  | EmptyString => EmptyString
  | String a s' =>
      String (if Ascii.eqb a c then d else a) (subst_char c d s')
  end.

(** A character that is no white space. *)
Definition nonspace (c : ascii) : bool := negb (isspace c).

(** A word: a text that is not empty and holds no white space. *)
Definition is_word (t : string) : Prop :=
  t <> EmptyString /\ all_chars nonspace t = true.

(** Whether a record passes the specialty filter: there is none, or it
    is empty, or it occurs in the specialty of the record, both taken
    in lower case. *)
Definition kept (sp : option string) (r : Cli.NPIResult.t) : bool :=
  match sp with
  | None => true
  | Some f =>
      if is_empty f then true
      else match Cli.NPIResult.specialty r with
           | JStr d => contains (lower f) (lower d)
           | _ => false
           end
  end.

(** A record whose specialty is a text. *)
Definition text_specialty (r : Cli.NPIResult.t) : Prop :=
  exists d, Cli.NPIResult.specialty r = JStr d.

(** The text [main] has parsed: the [--doctors] argument when it is
    given and not empty, else the text of the file with a comma in the
    place of every line feed. *)
Definition doctors_input (args : Cli.Args) : option string :=
  match Cli.given (Cli.doctors args) with
  | Some d => Some d
  | None =>
      match Cli.file args with
      | Some text => Some (subst_char line_feed "," text)
      | None => None
      end
  end.

(** The request to the geocoder, if any, that resolving the location of
    [args] takes: one when no coordinates are given and the location is
    given and is not in the table. *)
Definition geocoder_requests (args : Cli.Args) : list Request :=
  match Cli.given (Cli.coords args), Cli.given (Cli.location args) with
  | None, Some l =>
      match Cli.TEXAS_LOCATIONS !! Cli.normalize_location l with
      | Some _ => []
      | None => [Cli.geocoder_request (Cli.geocoder_query l)]
      end
  | _, _ => []
  end.

(** A run for a doctor near a place the table does not know. *)
Definition marfa_args : Cli.Args :=
  {| Cli.doctors := Some "Jane Doe"; Cli.file := None;
     Cli.location := Some "Marfa"; Cli.coords := None;
     Cli.city := None; Cli.radius := 25 |}.

(** A run for the doctors of a file, near Austin. *)
Definition austin_args : Cli.Args :=
  {| Cli.doctors := None;
     Cli.file := Some ("Jane Doe" +:+ String line_feed "Dr. John Smith (Cardiology)"
                       +:+ String line_feed EmptyString);
     Cli.location := Some "Austin, TX"; Cli.coords := None;
     Cli.city := Some "Austin"; Cli.radius := 10 |}.

(** The bundles a run of [main] has handed to the printer, none when it
    ended otherwise. *)
Definition reported (run : pyresult Cli.Outcome * World)
  : list Cli.Bundle.t :=
  match fst run with
  | Ok (Cli.Report bs) => bs
  | _ => []
  end.

End Spec.

(** * Properties *)

Import Py Net Spec.

(** ** Strings *)

Section StringFacts.

Implicit Types (s t u : string) (c : ascii).

Lemma app_nil_l s : EmptyString +:+ s = s.
Proof. reflexivity. Qed.

Lemma app_cons c s t : String c s +:+ t = String c (s +:+ t).
Proof. reflexivity. Qed.

Lemma app_nil_r s : s +:+ EmptyString = s.
Proof. induction s as [|c s IH]; [done|]. by rewrite app_cons, IH. Qed.

Lemma app_assoc s t u : (s +:+ t) +:+ u = s +:+ (t +:+ u).
Proof.
  induction s as [|c s IH]; [done|]. by rewrite !app_cons, IH.
Qed.

Lemma has_char_cons c a s :
  has_char c (String a s) = Ascii.eqb a c || has_char c s.
Proof.
  unfold has_char. simpl. destruct (Ascii.eqb a c); [done|].
  by destruct (index c s).
Qed.

Lemma has_char_app c s t :
  has_char c (s +:+ t) = has_char c s || has_char c t.
Proof.
  induction s as [|a s IH]; [done|].
  rewrite app_cons, !has_char_cons, IH. by rewrite orb_assoc.
Qed.

Lemma contains_char c s :
  contains (String c EmptyString) s = has_char c s.
Proof.
  induction s as [|a s IH]; [done|].
  rewrite has_char_cons, <- IH. simpl.
  rewrite (Ascii.eqb_sym c a). by destruct (Ascii.eqb a c), s.
Qed.

(** Where [index] finds a character, the string splits there. *)
Lemma index_Some c s i :
  index c s = Some i ->
  s = str_take i s +:+ String c (str_drop (S i) s)
  /\ has_char c (str_take i s) = false
  /\ String.length (str_take i s) = i.
Proof.
  revert i. induction s as [|a s IH]; intros i; [done|]. simpl.
  destruct (Ascii.eqb_spec a c) as [->|Hne].
  - intros [= <-]. by destruct s.
  - destruct (index c s) as [k|] eqn:Hk; [|done]. intros [= <-].
    destruct (IH k eq_refl) as (H1 & H2 & H3). simpl.
    rewrite app_cons, has_char_cons, H2, H3.
    split_and!; [by f_equal | | done].
    by destruct (Ascii.eqb_spec a c).
Qed.

Lemma index_None c s : index c s = None <-> has_char c s = false.
Proof. unfold has_char. by destruct (index c s). Qed.

(** The first occurrence of [c] in [s +:+ String c t] when [s] has none. *)
Lemma index_app c s t :
  has_char c s = false ->
  index c (s +:+ String c t) = Some (String.length s).
Proof.
  induction s as [|a s IH]; simpl.
  - intros _. by rewrite Ascii.eqb_refl.
  - rewrite has_char_cons. intros [Ha Hs]%orb_false_elim.
    rewrite ?app_cons. simpl. by rewrite Ha, (IH Hs).
Qed.

Lemma index_app_l c s t i :
  index c s = Some i -> index c (s +:+ t) = Some i.
Proof.
  revert i. induction s as [|a s IH]; intros i; [done|].
  rewrite app_cons. simpl. destruct (Ascii.eqb a c); [done|].
  destruct (index c s) as [k|]; [|done]. intros [= <-].
  by rewrite (IH k eq_refl).
Qed.

Lemma has_char_index c s :
  has_char c s = true -> exists i, index c s = Some i.
Proof. unfold has_char. destruct (index c s); [eauto|done]. Qed.

Lemma take_app_length s t : str_take (String.length s) (s +:+ t) = s.
Proof.
  induction s as [|a s IH]; simpl; [by destruct t|].
  by rewrite ?app_cons, IH.
Qed.

Lemma drop_app_length s t : str_drop (String.length s) (s +:+ t) = t.
Proof.
  induction s as [|a s IH]; simpl; [by destruct t|]. by rewrite ?app_cons.
Qed.

Lemma take_take_le i j s :
  (i <= j)%nat -> str_take i (str_take j s) = str_take i s.
Proof.
  revert j s. induction i as [|i IH]; intros [|j] [|a s] Hij; simpl;
    try done; try lia.
  f_equal. apply IH. lia.
Qed.

Lemma has_char_take c i j s :
  (i <= j)%nat -> has_char c (str_take j s) = false ->
  has_char c (str_take i s) = false.
Proof.
  revert j s. induction i as [|i IH]; intros [|j] [|a s] Hij; simpl;
    try done; try lia.
  rewrite !has_char_cons. intros [Ha Hs]%orb_false_elim. rewrite Ha. simpl.
  apply (IH j); [lia | done].
Qed.

End StringFacts.

(** ** Splitting and joining *)

Section SplitFacts.

Implicit Types (s t u : string) (c sep : ascii).

Lemma split_not_nil sep s : split sep s <> [].
Proof.
  destruct s as [|a s]; simpl; [done|].
  destruct (Ascii.eqb a sep); [done|]. by destruct (split sep s).
Qed.

(** Joining the pieces with the separator gives the string back. *)
Lemma join_split sep s : join (String sep EmptyString) (split sep s) = s.
Proof.
  induction s as [|a s IH]; [done|]. simpl.
  destruct (Ascii.eqb_spec a sep) as [->|Hne].
  - pose proof (split_not_nil sep s) as Hnil.
    destruct (split sep s) as [|p ps] eqn:E; [done|].
    change (String sep (join (String sep EmptyString) (p :: ps))
            = String sep s).
    by rewrite IH.
  - destruct (split sep s) as [|p ps] eqn:E; [by destruct (split_not_nil sep s)|].
    rewrite <- IH. destruct ps; reflexivity.
Qed.

(** No piece holds the separator. *)
Lemma split_no_sep sep s :
  Forall (fun p => has_char sep p = false) (split sep s).
Proof.
  induction s as [|a s IH]; simpl; [by repeat constructor|].
  destruct (Ascii.eqb_spec a sep) as [->|Hne]; [by constructor|].
  assert (Ha : Ascii.eqb a sep = false) by by destruct (Ascii.eqb_spec a sep).
  destruct (split sep s) as [|p ps].
  - repeat constructor. by rewrite has_char_cons, Ha.
  - inversion IH; subst. constructor; [|done]. by rewrite has_char_cons, Ha.
Qed.

(** [split1] cuts at the first separator. *)
Lemma split1_app sep s t :
  has_char sep s = false ->
  split1 sep (s +:+ String sep t) = [s; t].
Proof.
  induction s as [|a s IH]; simpl.
  - intros _. by rewrite Ascii.eqb_refl.
  - rewrite has_char_cons. intros [Ha Hs]%orb_false_elim.
    rewrite ?app_cons. simpl. by rewrite Ha, (IH Hs).
Qed.

Lemma split1_has_sep sep s :
  has_char sep s = true ->
  exists p q, split1 sep s = [p; q] /\ s = p +:+ String sep q
              /\ has_char sep p = false.
Proof.
  intros [i Hi]%has_char_index.
  destruct (index_Some _ _ _ Hi) as (Hs & Hno & _).
  exists (str_take i s), (str_drop (S i) s). split_and!; [|done..].
  rewrite Hs at 1. by apply split1_app.
Qed.

End SplitFacts.

(** ** White space *)

Section StripFacts.

Implicit Types (s t u w : string) (c : ascii).

Lemma rstrip_idemp s : rstrip (rstrip s) = rstrip s.
Proof.
  induction s as [|a s IH]; [done|]. simpl.
  destruct (isspace a) eqn:Ha; simpl.
  - destruct (rstrip s) eqn:E; simpl; [done|].
    rewrite Ha. simpl in *. by rewrite IH.
  - by rewrite Ha, IH.
Qed.

(** [lstrip] leaves a string that does not start with white space. *)
Lemma lstrip_clean s : starts_clean (lstrip s).
Proof.
  induction s as [|a s IH]; [done|]. simpl.
  by destruct (isspace a) eqn:Ha.
Qed.

Lemma lstrip_of_clean s : starts_clean s -> lstrip s = s.
Proof. destruct s as [|a s]; [done|]. simpl. by intros ->. Qed.

Lemma rstrip_clean s : starts_clean s -> starts_clean (rstrip s).
Proof.
  destruct s as [|a s]; [done|]. simpl. intros Ha. by rewrite Ha.
Qed.

Lemma strip_idemp s : strip (strip s) = strip s.
Proof.
  unfold strip.
  rewrite (lstrip_of_clean (rstrip (lstrip s))).
  - apply rstrip_idemp.
  - apply rstrip_clean, lstrip_clean.
Qed.

(** A text without any word is white space throughout. *)
Lemma split_ws_from_nil s : split_ws_from None s = [] -> rstrip s = EmptyString.
Proof.
  induction s as [|a s IH]; [done|]. simpl.
  destruct (isspace a) eqn:Ha.
  - intros H. by rewrite (IH H).
  - clear IH. generalize (String a EmptyString). intros w H. exfalso.
    revert w H. induction s as [|b s IH]; intros w; simpl; [done|].
    destruct (isspace b); [done|]. apply IH.
Qed.

(** Reading on inside a word [w]: a single word in all is [w] followed
    by the rest without its white space at the end. *)
Lemma split_ws_from_single s w t :
  split_ws_from (Some w) s = [t] -> t = w +:+ rstrip s.
Proof.
  revert w. induction s as [|a s IH]; intros w; simpl.
  - intros [= <-]. by rewrite app_nil_r.
  - destruct (isspace a) eqn:Ha; simpl.
    + intros [= <- H]. by rewrite (split_ws_from_nil _ H), app_nil_r.
    + intros H. rewrite (IH _ H), app_assoc. reflexivity.
Qed.

(** A text of a single word is that word once stripped. *)
Lemma split_ws_single s t : split_ws s = [t] -> strip s = t.
Proof.
  unfold split_ws, strip. induction s as [|a s IH]; [done|]. simpl.
  destruct (isspace a) eqn:Ha; [done|].
  intros H. rewrite (split_ws_from_single _ _ _ H). simpl. by rewrite Ha.
Qed.

End StripFacts.

(** ** Taking and dropping *)

Section SliceFacts.

Implicit Types (s t u : string) (c : ascii) (i j : nat).

Lemma take_drop i s : str_take i s +:+ str_drop i s = s.
Proof.
  revert s. induction i as [|i IH]; intros [|a s]; simpl; try done.
  by rewrite ?app_cons, IH.
Qed.

Lemma take_split i j s :
  (i <= j)%nat ->
  str_take j s = str_take i s +:+ str_take (j - i) (str_drop i s).
Proof.
  revert j s. induction i as [|i IH]; intros j s Hij.
  - rewrite Nat.sub_0_r. by destruct s.
  - destruct j as [|j]; [lia|].
    destruct s as [|a s]; [simpl; by destruct (j - i)%nat|]. simpl.
    rewrite ?app_cons. f_equal. apply IH. lia.
Qed.

Lemma drop_index c s i :
  index c s = Some i -> str_drop i s = String c (str_drop (S i) s).
Proof.
  revert i. induction s as [|a s IH]; intros i; [done|]. simpl.
  destruct (Ascii.eqb_spec a c) as [->|Hne].
  - intros [= <-]. by destruct s.
  - destruct (index c s) as [k|] eqn:Hk; [|done]. intros [= <-].
    simpl. by rewrite (IH k eq_refl).
Qed.

Lemma has_char_take_past c s i j :
  index c s = Some j -> (j < i)%nat -> has_char c (str_take i s) = true.
Proof.
  revert i j. induction s as [|a s IH]; intros i j; [done|]. simpl.
  destruct (Ascii.eqb_spec a c) as [->|Hne].
  - intros [= <-] Hi. destruct i; [lia|]. simpl.
    by rewrite has_char_cons, Ascii.eqb_refl.
  - destruct (index c s) as [k|] eqn:Hk; [|done]. intros [= <-] Hi.
    destruct i; [lia|]. simpl. rewrite has_char_cons.
    rewrite (IH i k eq_refl); [by rewrite orb_true_r | lia].
Qed.

Lemma slice_0 j s : slice 0 j s = str_take j s.
Proof. unfold slice. rewrite Nat.sub_0_r. by destruct s. Qed.

Lemma slice_empty i j s : (j <= i)%nat -> slice i j s = EmptyString.
Proof.
  intros Hji. unfold slice. replace (j - i)%nat with 0%nat by lia.
  by destruct (str_drop i s).
Qed.

End SliceFacts.

(** ** The doctor parser *)

Section ParseDoctors.

Lemma entry_doctor_eq e e' d d' :
  entry_doctor e' d' -> e = e' -> d = d' -> entry_doctor e d.
Proof. by intros H -> ->. Qed.

(** The doctor appended for an entry is the one described, unless the
    entry closes a parenthesis before it opens one. *)
Lemma doctor_of_entry e : closes_first e \/ entry_doctor e (doctor_of e).
Proof.
  unfold doctor_of.
  destruct (index "(" e) as [i|] eqn:Hi;
    [|right; constructor; left; by apply index_None].
  destruct (index ")" e) as [j|] eqn:Hj;
    [|right; constructor; right; by apply index_None].
  destruct (index_Some _ _ _ Hi) as (Hei & Hno_i & Hlen_i).
  destruct (index_Some _ _ _ Hj) as (Hej & Hno_j & Hlen_j).
  assert (i <> j) as Hne.
  { intros <-. apply drop_index in Hi, Hj. congruence. }
  destruct (Nat.lt_ge_cases i j) as [Hlt|Hge].
  - right. set (mid := slice (i + 1) j e).
    assert (Htake : str_take j e = str_take i e +:+ String "(" mid).
    { rewrite (take_split i j) by lia. f_equal.
      rewrite (drop_index _ _ _ Hi). unfold mid, slice.
      replace (j - i)%nat with (S (j - (i + 1))) by lia.
      by rewrite Nat.add_1_r. }
    eapply entry_doctor_eq;
      [apply (entry_pair (str_take i e) mid (str_drop (S j) e))| |done].
    + done.
    + apply (has_char_take _ i j); [lia | done].
    + rewrite Htake, has_char_app, has_char_cons in Hno_j.
      apply orb_false_elim in Hno_j as [_ H]. by apply orb_false_elim in H as [_ H].
    + rewrite Hej at 1. rewrite Htake, app_assoc. reflexivity.
  - left. exists i, j. split_and!; [done..|lia].
Qed.

(** Where the entry closes a parenthesis before it opens one, the slice
    between the two is empty. *)
Lemma doctor_of_closes_first e i j :
  index "(" e = Some i -> index ")" e = Some j -> (j < i)%nat ->
  doctor_of e = Doctor.mk (strip (str_take i e)) (Some EmptyString).
Proof.
  intros Hi Hj Hji. unfold doctor_of. rewrite Hi, Hj.
  by rewrite slice_empty by lia.
Qed.

Lemma is_empty_spec s : is_empty s = true <-> s = EmptyString.
Proof. by destruct s. Qed.

(** The loop appends the doctor of each entry that is not empty. *)
Lemma parse_entries_spec es acc :
  Cli.parse_entries es acc
  = Ok (acc ++ map doctor_of
                 (filter (fun e => e <> EmptyString) (map strip es))).
Proof.
  revert acc. induction es as [|x es IH]; intros acc; simpl.
  { by rewrite List.app_nil_r. }
  rewrite filter_cons.
  destruct (is_empty (strip x)) eqn:He.
  { apply is_empty_spec in He. rewrite He.
    rewrite decide_False by (by intros []). apply IH. }
  rewrite decide_True by (intros E; rewrite E in He; done).
  rewrite !contains_char, map_cons.
  unfold doctor_of at 1. unfold index_or_raise, has_char.
  destruct (index "(" (strip x)) as [i|]; simpl;
    [destruct (index ")" (strip x)) as [j|]; simpl|];
    rewrite IH, <- List.app_assoc, ?slice_0; done.
Qed.

Lemma web_parse_doctors input :
  Web.parse_doctors input = Cli.parse_doctors input.
Proof. reflexivity. Qed.

(** C3 (the code departs from the claim).  For an entry whose first [)]
    stands before its first [(], the parser does not return the text
    inside the first pair of parentheses, nor any text next to them: the
    slice it takes is empty, so the specialty is the empty string, and
    the name keeps the stray [)].  Both programs do so at
    [Smith) (Cardiology)] and at [a)b(c)d], and at every such entry. *)
Theorem parse_doctors_closing_first :
  Cli.parse_doctors "Smith) (Cardiology)"
  = Ok [Doctor.mk "Smith)" (Some EmptyString)] /\
  Web.parse_doctors "Smith) (Cardiology)"
  = Ok [Doctor.mk "Smith)" (Some EmptyString)] /\
  Cli.parse_doctors "a)b(c)d" = Ok [Doctor.mk "a)b" (Some EmptyString)] /\
  Web.parse_doctors "a)b(c)d" = Ok [Doctor.mk "a)b" (Some EmptyString)] /\
  forall input, exists doctors,
    Cli.parse_doctors input = Ok doctors /\
    Web.parse_doctors input = Ok doctors /\
    Forall2 (fun e d => forall i j,
               index "(" e = Some i -> index ")" e = Some j -> (j < i)%nat ->
               d = Doctor.mk (strip (str_take i e)) (Some EmptyString))
            (entries input) doctors.
Proof.
  split_and!; try reflexivity.
  intros input. exists (map doctor_of (entries input)).
  change (Web.parse_doctors input) with (Cli.parse_doctors input).
  unfold Cli.parse_doctors.
  rewrite parse_entries_spec. split_and!; try done.
  generalize (entries input). intros l.
  induction l as [|e l IH]; constructor; [|exact IH].
  intros i j. apply doctor_of_closes_first.
Qed.

(** X1. The doctor parser splits its input on commas, trims every piece
    and skips the empty ones; it returns one doctor for each remaining
    entry, in order (so an entry given twice is returned twice), and
    never raises.  An entry with a first [(] and its first [)] after it
    gives the trimmed text before the [(] as name and the trimmed text
    between the two as specialty; an entry without an opening or
    without a closing parenthesis gives itself as name and no
    specialty.  Both programs parse alike. *)
Theorem parse_doctors_well_paired (input : string) :
  join "," (split "," input) = input /\
  Forall (fun p => has_char "," p = false) (split "," input) /\
  exists doctors,
    Cli.parse_doctors input = Ok doctors /\
    Web.parse_doctors input = Ok doctors /\
    Forall2 (fun e d => ~ closes_first e -> entry_doctor e d)
            (entries input) doctors.
Proof.
  split; [apply join_split|]. split; [apply split_no_sep|].
  exists (map doctor_of (entries input)).
  change (Web.parse_doctors input) with (Cli.parse_doctors input).
  unfold Cli.parse_doctors.
  rewrite parse_entries_spec. split_and!; try done.
  generalize (entries input). intros l.
  induction l as [|e l IH]; constructor; [|exact IH].
  intros Hopen. by destruct (doctor_of_entry e).
Qed.

Example parse_doctors_sample :
  Cli.parse_doctors
    " John Smith (Cardiology) ,Jane Doe,, John Smith (Cardiology),A (b)c(d),x)y( "
  = Ok [Doctor.mk "John Smith" (Some "Cardiology");
        Doctor.mk "Jane Doe" None;
        Doctor.mk "John Smith" (Some "Cardiology");
        Doctor.mk "A" (Some "b");
        Doctor.mk "x)y" (Some EmptyString)].
Proof. reflexivity. Qed.

End ParseDoctors.

(** ** The name sent to the registry *)

Section SplitName.

Lemma web_split_name name : Web.split_name name = Cli.split_name name.
Proof. reflexivity. Qed.

(** The unpacking of the two names never fails. *)
Lemma split_name_total name :
  exists first last, Cli.split_name name = Ok (first, last).
Proof.
  unfold Cli.split_name.
  set (name_parts := strip _).
  destruct (contains "," name_parts) eqn:Hc.
  - rewrite contains_char in Hc.
    destruct (split1_has_sep _ _ Hc) as (p & q & -> & _). simpl. eauto.
  - destruct (2 <=? length (split_ws name_parts))%nat; eauto.
Qed.

(** C2. The name splitting of the registry client works on the name
    without its [Dr.] and [Dr] substrings, trimmed.  With a comma there,
    the text before the first comma is the last name and the text after
    it the first name, both trimmed.  Without a comma, the first word is
    the first name and the other words, joined by single spaces, are the
    last name; a single word is the last name and the first name is
    empty.  Both programs split alike. *)
Theorem split_name_rule (name : string) :
  let name_parts :=
    strip (replace "Dr" EmptyString (replace "Dr." EmptyString name)) in
  (forall pre post,
      name_parts = pre +:+ "," +:+ post -> has_char "," pre = false ->
      Cli.split_name name = Ok (strip post, strip pre)) /\
  (forall t ts,
      has_char "," name_parts = false ->
      split_ws name_parts = t :: ts -> ts <> [] ->
      Cli.split_name name = Ok (t, join " " ts)) /\
  (forall t,
      has_char "," name_parts = false ->
      split_ws name_parts = [t] ->
      name_parts = t /\ Cli.split_name name = Ok (EmptyString, t)) /\
  (split_ws name_parts = [] ->
      Cli.split_name name = Ok (EmptyString, EmptyString)) /\
  Web.split_name name = Cli.split_name name.
Proof.
  intros name_parts.
  split_and!; [| | | |reflexivity];
    unfold Cli.split_name; fold name_parts; rewrite contains_char.
  - intros pre post E Hpre.
    assert (has_char "," name_parts = true) as ->.
    { rewrite E, has_char_app. change ("," +:+ post) with (String "," post).
      rewrite has_char_cons. simpl. by rewrite orb_true_r. }
    rewrite E. change ("," +:+ post) with (String "," post).
    by rewrite (split1_app _ _ _ Hpre).
  - intros t ts -> -> Hts. destruct ts; [done | reflexivity].
  - intros t Hc Ht.
    assert (name_parts = t) as E.
    { rewrite <- (split_ws_single _ _ Ht). unfold name_parts.
      by rewrite strip_idemp. }
    rewrite Hc, Ht. simpl. split; [done | by rewrite E].
  - intros Hnil. rewrite Hnil.
    assert (name_parts = EmptyString) as E.
    { apply split_ws_from_nil in Hnil. unfold name_parts, strip in *.
      by rewrite rstrip_idemp in Hnil. }
    rewrite E. reflexivity.
Qed.

(** The three names of the specification. *)
Lemma split_name_examples :
  Cli.split_name "Smith, John" = Ok ("John", "Smith") /\
  Cli.split_name "John Smith" = Ok ("John", "Smith") /\
  Cli.split_name "Madonna" = Ok (EmptyString, "Madonna").
Proof.
  split_and!.
  - exact (proj1 (split_name_rule "Smith, John") "Smith" " John"
             eq_refl eq_refl).
  - exact (proj1 (proj2 (split_name_rule "John Smith")) "John" ["Smith"]
             eq_refl eq_refl ltac:(discriminate)).
  - exact (proj2 (proj1 (proj2 (proj2 (split_name_rule "Madonna")))
                    "Madonna" eq_refl eq_refl)).
Defined.

Example split_name_titles :
  Cli.split_name "Dr. Mary Ann Van Drake" = Ok ("Mary", "Ann Van ake").
Proof. reflexivity. Qed.

End SplitName.

(** ** The link generators *)

Section Links.

Lemma cli_generate_bcbstx_urls name lat lon radius :
  Cli.generate_bcbstx_urls name lat lon radius
  = Ok (bcbstx_links name lat lon radius).
Proof.
  unfold Cli.generate_bcbstx_urls, bcbstx_links, bcbstx_url.
  rewrite <- (app_nil_r (int_str radius)).
  generalize (quote name). intros q. vm_compute. reflexivity.
Qed.

End Links.

(** ** The registry client *)

Section SearchNpi.

Lemma plain_ok {A} (a : A) : plain (Ok a).
Proof. by intros e. Qed.

Lemma plain_other {A} : plain (@Err A OtherError).
Proof. by intros e [= <-]. Qed.

Lemma plain_bind {A B} (m : pyresult A) (k : A -> pyresult B) :
  plain m -> (forall a, plain (k a)) -> plain (rbind m k).
Proof.
  intros Hm Hk e. destruct m as [a|e']; simpl; [apply Hk|].
  intros [= <-]. by apply Hm.
Qed.

Lemma plain_get d k v : plain (get d k v).
Proof. destruct d; first [apply plain_ok | apply plain_other]. Qed.

Lemma plain_iter v : plain (iter v).
Proof. destruct v; first [apply plain_ok | apply plain_other]. Qed.

Lemma plain_first_item v : plain (first_item v).
Proof.
  destruct v as [| | | |[|]|[|]|]; first [apply plain_ok | apply plain_other].
Qed.

Lemma plain_slice_to n v : plain (slice_to n v).
Proof. destruct v; first [apply plain_ok | apply plain_other]. Qed.

Lemma plain_lower_of v : plain (lower_of v).
Proof. destruct v; first [apply plain_ok | apply plain_other]. Qed.

Lemma plain_next_where p xs v :
  (forall x, plain (p x)) -> plain (next_where p xs v).
Proof.
  intros Hp. induction xs as [|x xs IH]; simpl; [apply plain_ok|].
  apply plain_bind; [apply Hp|]. intros []; [apply plain_ok | apply IH].
Qed.

Ltac plain_step :=
  first
    [ apply plain_ok | apply plain_other | apply plain_get
    | apply plain_iter | apply plain_first_item | apply plain_slice_to
    | apply plain_lower_of
    | apply plain_next_where; intros ?
    | apply plain_bind; [|intros ?]
    | match goal with
      | |- plain (if ?b then _ else _) => destruct b
      | |- plain (match ?o with Some _ => _ | None => _ end) => destruct o
      end ].

Lemma plain_cli_normalize sp r : plain (Cli.normalize sp r).
Proof.
  unfold Cli.normalize, Cli.practice_address, Cli.primary_taxonomy,
    Cli.filtered_out.
  repeat plain_step.
Qed.

Lemma plain_cli_records_of sp doc : plain (Cli.records_of sp doc).
Proof.
  unfold Cli.records_of. do 2 (apply plain_bind; [plain_step|intros ?]).
  rename a0 into rs. generalize (@nil Cli.NPIResult.t).
  induction rs as [|r rs IH]; intros acc; simpl; [apply plain_ok|].
  apply plain_bind; [apply plain_cli_normalize|]. intros o. apply IH.
Qed.

(** One call of [search_npi] of the command-line tool: one request, and
    what the outcome of that request gives. *)
Lemma cli_search_npi_run name state city sp limit w :
  let r := registry_request name state city limit in
  Cli.search_npi name state city sp limit w
  = (cli_answer sp (outcome w r), sent r w).
Proof.
  intros r. unfold Cli.search_npi, bind, lift, try_except, get_json.
  unfold r, registry_request, names_of.
  destruct (split_name_total name) as (f & l & ->). simpl.
  destruct (outcome w _) as [e|doc]; simpl; [done|].
  destruct (Cli.records_of sp doc) as [rows|e] eqn:E; [done|].
  by rewrite (plain_cli_records_of _ _ _ E).
Qed.

(** One call of [search_npi] of the web form: it never raises. *)
Lemma web_search_npi_run name state city sp limit w :
  let r := registry_request name state city limit in
  Web.search_npi name state city sp limit w
  = (Ok (web_answer sp (outcome w r)), sent r w).
Proof.
  intros r. unfold Web.search_npi, bind, lift, try_except, get_json.
  change (Web.split_name name) with (Cli.split_name name).
  unfold r, registry_request, names_of.
  destruct (split_name_total name) as (f & l & ->). simpl.
  change (Web.npi_request f l state city limit)
    with (Cli.npi_request f l state city limit).
  destruct (outcome w _) as [e|doc]; simpl; [done|].
  by destruct (Web.records_of sp doc).
Qed.

End SearchNpi.

(** ** The orchestrating loops *)

Section Loops.

Variables (lat lon : pyfloat) (radius : Z) (city : option string).

Lemma web_generate_bcbstx_urls name :
  Web.generate_bcbstx_urls name lat lon radius
  = Ok (bcbstx_links name lat lon radius).
Proof. apply cli_generate_bcbstx_urls. Qed.

Lemma cli_check_doctor_run d w :
  Cli.check_doctor d lat lon radius city w
  = (rbind (cli_answer (Doctor.specialty d) (outcome w (doctor_request city d)))
       (fun found =>
          Ok (cli_bundle d found
                (bcbstx_links (Doctor.name d) lat lon radius))),
     sent (doctor_request city d) w).
Proof.
  unfold Cli.check_doctor, bind, lift.
  rewrite cli_search_npi_run, cli_generate_bcbstx_urls.
  by destruct (cli_answer _ _) as [found|e].
Qed.

Lemma web_search_one_run d w :
  Web.search_one d lat lon radius city w
  = (Ok (web_bundle d
           (web_answer (Doctor.specialty d) (outcome w (doctor_request city d)))
           (bcbstx_links (Doctor.name d) lat lon radius)),
     sent (doctor_request city d) w).
Proof.
  unfold Web.search_one, bind, lift.
  by rewrite web_search_npi_run, web_generate_bcbstx_urls.
Qed.

Lemma found_flag {A} (found : list A) :
  (0 <? length found)%nat = true <-> found <> [].
Proof. by destruct found. Qed.

Lemma web_bundle_reports d found urls :
  web_reports d found (web_bundle d found urls).
Proof. unfold web_reports. simpl. split_and!; try done. apply found_flag. Qed.

Lemma cli_bundle_reports d found urls :
  cli_reports d found (cli_bundle d found urls).
Proof. unfold cli_reports. simpl. split_and!; try done. apply found_flag. Qed.

(** The loop of the web form, from any list built so far: one bundle is
    appended for each doctor, in order, made from the outcome of the
    request issued for that doctor. *)
Lemma web_search_each_run doctors acc w :
  exists bundles,
    Web.search_each doctors lat lon radius city acc w
    = (Ok (acc ++ bundles), sent_all (map (doctor_request city) doctors) w) /\
    length bundles = length doctors /\
    forall i d, doctors !! i = Some d ->
      bundles !! i
      = Some (web_bundle d
                (web_answer (Doctor.specialty d)
                   (respond w (length (issued w) + i) (doctor_request city d)))
                (bcbstx_links (Doctor.name d) lat lon radius)).
Proof.
  revert acc w. induction doctors as [|d ds IH]; intros acc w; simpl.
  { exists []. by rewrite List.app_nil_r. }
  unfold bind. rewrite web_search_one_run.
  destruct (IH (acc ++ [web_bundle d
                  (web_answer (Doctor.specialty d) (outcome w (doctor_request city d)))
                  (bcbstx_links (Doctor.name d) lat lon radius)])
              (sent (doctor_request city d) w)) as (bs & Hrun & Hlen & Hnth).
  eexists (_ :: bs). rewrite Hrun, <- List.app_assoc. simpl.
  split_and!; [done | by rewrite Hlen |].
  intros [|i] d'; simpl.
  - intros [= <-]. unfold outcome. by rewrite Nat.add_0_r.
  - intros Hd. rewrite (Hnth i d' Hd). simpl. rewrite length_app. simpl.
    by replace (length (issued w) + 1 + i)%nat
         with (length (issued w) + S i)%nat by lia.
Qed.

(** The loop of the command-line tool, when no lookup raises. *)
Lemma cli_check_each_run doctors acc w :
  (forall i d, doctors !! i = Some d ->
     exists found,
       cli_answer (Doctor.specialty d)
         (respond w (length (issued w) + i) (doctor_request city d)) = Ok found) ->
  exists bundles,
    Cli.check_each doctors lat lon radius city acc w
    = (Ok (acc ++ bundles), sent_all (map (doctor_request city) doctors) w) /\
    length bundles = length doctors /\
    forall i d found, doctors !! i = Some d ->
      cli_answer (Doctor.specialty d)
        (respond w (length (issued w) + i) (doctor_request city d)) = Ok found ->
      bundles !! i
      = Some (cli_bundle d found
                (bcbstx_links (Doctor.name d) lat lon radius)).
Proof.
  revert acc w. induction doctors as [|d ds IH]; intros acc w Hall; simpl.
  { exists []. by rewrite List.app_nil_r. }
  unfold bind. rewrite cli_check_doctor_run.
  destruct (Hall 0%nat d eq_refl) as (found & Hfound).
  rewrite Nat.add_0_r in Hfound. unfold outcome. rewrite Hfound. simpl.
  destruct (IH (acc ++ [cli_bundle d found
                          (bcbstx_links (Doctor.name d) lat lon radius)])
              (sent (doctor_request city d) w)) as (bs & Hrun & Hlen & Hnth).
  { intros i d' Hd. simpl. rewrite length_app. simpl.
    replace (length (issued w) + 1 + i)%nat
      with (length (issued w) + S i)%nat by lia.
    by apply (Hall (S i)). }
  eexists (_ :: bs). rewrite Hrun, <- List.app_assoc. simpl.
  split_and!; [done | by rewrite Hlen |].
  intros [|i] d' found'; simpl.
  - intros [= <-]. rewrite Nat.add_0_r, Hfound. by intros [= <-].
  - intros Hd Hf. apply (Hnth i d' found' Hd). simpl.
    rewrite length_app. simpl.
    by replace (length (issued w) + 1 + i)%nat
         with (length (issued w) + S i)%nat by lia.
Qed.

End Loops.

(** C1, amended.  For every list of doctors and every coordinates, the
    loop of the web form returns one bundle per doctor, in the order of
    the doctors (a doctor listed twice has two bundles), and so does the
    loop of the command-line tool in every run in which each registry
    lookup returns a list (a transport failure counts as the empty
    list).  The bundle of a doctor reports the list its registry lookup
    returned: the found-flag is true exactly when the list is not empty,
    the count is the length of the whole list, and the records shown
    are its first five. *)
Theorem one_bundle_per_doctor (doctors : list Doctor.t) (lat lon : pyfloat)
    (radius : Z) (city : option string) (w : World) :
  let reply i d :=
    respond w (length (issued w) + i) (doctor_request city d) in
  (exists bundles,
      Web.search_each doctors lat lon radius city [] w
      = (Ok bundles, sent_all (map (doctor_request city) doctors) w) /\
      length bundles = length doctors /\
      forall i d, doctors !! i = Some d ->
        exists b, bundles !! i = Some b /\
          web_reports d (web_answer (Doctor.specialty d) (reply i d)) b) /\
  ((forall i d, doctors !! i = Some d ->
      exists found, cli_answer (Doctor.specialty d) (reply i d) = Ok found) ->
   exists bundles,
      Cli.check_each doctors lat lon radius city [] w
      = (Ok bundles, sent_all (map (doctor_request city) doctors) w) /\
      length bundles = length doctors /\
      forall i d found, doctors !! i = Some d ->
        cli_answer (Doctor.specialty d) (reply i d) = Ok found ->
        exists b, bundles !! i = Some b /\ cli_reports d found b).
Proof.
  intros reply. split.
  - destruct (web_search_each_run lat lon radius city doctors [] w)
      as (bs & Hrun & Hlen & Hnth).
    exists bs. split_and!; [done..|].
    intros i d Hd. eexists. split; [by apply Hnth|].
    apply web_bundle_reports.
  - intros Hall.
    destruct (cli_check_each_run lat lon radius city doctors [] w Hall)
      as (bs & Hrun & Hlen & Hnth).
    exists bs. split_and!; [done..|].
    intros i d found Hd Hf. eexists. split; [by apply Hnth|].
    apply cli_bundle_reports.
Qed.

Lemma one_bundle_per_doctor_witness :
  exists bundles,
    Cli.check_each sample_doctors dallas.1 dallas.2 25 None [] sample_world
    = (Ok bundles,
       sent_all (map (doctor_request None) sample_doctors) sample_world) /\
    length bundles = length sample_doctors /\
    forall i d found, sample_doctors !! i = Some d ->
      cli_answer (Doctor.specialty d)
        (respond sample_world (length (issued sample_world) + i)
           (doctor_request None d)) = Ok found ->
      exists b, bundles !! i = Some b /\ cli_reports d found b.
Proof.
  apply (proj2 (one_bundle_per_doctor sample_doctors dallas.1 dallas.2 25
                  None sample_world)).
  intros [|[|[|i]]] d Hd; simpl in Hd; inversion Hd; subst;
    eexists; vm_compute; reflexivity.
Defined.

(** C1 as stated fails for the command-line tool, whose [search_npi]
    catches request exceptions only: where the registry answers with a
    body that is no object, or with a record whose taxonomy has a null
    description while the doctor has a specialty, the lookup of the
    first doctor raises, the loop ends after its one request and no
    bundle is returned, for that doctor or for those after it. *)
Lemma cli_run_stops_short :
  Cli.check_each sample_doctors dallas.1 dallas.2 25 None [] ill_shaped
  = (Err OtherError,
     sent (doctor_request None (Doctor.mk "Jane Doe" None)) ill_shaped) /\
  Cli.check_each filtered_doctors dallas.1 dallas.2 25 None [] null_desc
  = (Err OtherError,
     sent (doctor_request None (Doctor.mk "John Smith" (Some "Cardiology")))
       null_desc) /\
  ~ always_one_bundle_each.
Proof.
  assert (Cli.check_each sample_doctors dallas.1 dallas.2 25 None []
            ill_shaped
          = (Err OtherError,
             sent (doctor_request None (Doctor.mk "Jane Doe" None))
               ill_shaped)) as Hrun
    by (vm_compute; reflexivity).
  split; [exact Hrun|]. split; [vm_compute; reflexivity|].
  intros Hall.
  destruct (Hall sample_doctors dallas.1 dallas.2 25 None ill_shaped)
    as [_ (bundles & w' & Hok & _)].
  rewrite Hrun in Hok. discriminate Hok.
Qed.

Example cli_sample_run :
  (fun bs => map (fun b => (Cli.Bundle.doctor b, Cli.Bundle.npi_found b,
                            Cli.Bundle.npi_count b,
                            length (Cli.Bundle.npi_results b))) bs)
  <$> match fst (Cli.check_each sample_doctors dallas.1 dallas.2 25 None []
                   sample_world) with
      | Ok bs => Some bs
      | Err _ => None
      end
  = Some [("Jane Doe", true, 6%nat, 5%nat); ("Jane Doe", false, 0%nat, 0%nat);
          ("Dr. John Smith", false, 0%nat, 0%nat)].
Proof. vm_compute. reflexivity. Qed.

(** A body that is no object is not a transport error: the
    command-line tool lets the error through and the run ends there. *)
Example cli_ill_shaped_aborts :
  fst (Cli.check_each sample_doctors dallas.1 dallas.2 25 None [] ill_shaped)
  = Err OtherError.
Proof. vm_compute. reflexivity. Qed.

(** ** The location resolver *)

Section Geocode.

Variable float_of_str : string -> option pyfloat.

Lemma normalize_location_eq location :
  Cli.normalize_location location = without_state (strip (lower location)).
Proof. reflexivity. Qed.

Lemma cli_suffixes_dropped : suffixes_dropped Cli.TEXAS_LOCATIONS_items = true.
Proof. vm_compute. reflexivity. Qed.

Lemma known_key_normalized key suffix c :
  Cli.TEXAS_LOCATIONS !! key = Some c ->
  In suffix state_suffixes ->
  without_state (key +:+ suffix) = key.
Proof.
  intros Hkey Hsuffix.
  apply elem_of_list_to_map_2, list_elem_of_In in Hkey.
  pose proof cli_suffixes_dropped as H. unfold suffixes_dropped in H.
  rewrite forallb_forall in H. specialize (H _ Hkey).
  rewrite forallb_forall in H. specialize (H _ Hsuffix).
  by apply String.eqb_eq in H.
Qed.

(** C7. A location whose normalized form is a key of the static table
    resolves to the coordinates of that key whatever the geocoding
    service would answer, and the world is left as it was: no request
    is issued.  This is so for the key computed by the code, and so for
    every location that, lower-cased and trimmed, is a key followed by
    one of the suffixes [, tx], [ tx], [, texas], [ texas] or by
    nothing. *)
Theorem known_location_offline (location : string) (w : World) :
  (forall c,
      Cli.TEXAS_LOCATIONS !! Cli.normalize_location location = Some c ->
      Cli.geocode_location float_of_str location w = (Ok c, w)) /\
  (forall key suffix c,
      Cli.TEXAS_LOCATIONS !! key = Some c ->
      In suffix state_suffixes ->
      strip (lower location) = key +:+ suffix ->
      Cli.geocode_location float_of_str location w = (Ok c, w)).
Proof.
  assert (forall c,
      Cli.TEXAS_LOCATIONS !! Cli.normalize_location location = Some c ->
      Cli.geocode_location float_of_str location w = (Ok c, w)) as Hhit.
  { intros c Hc. unfold Cli.geocode_location. by rewrite Hc. }
  split; [done|]. intros key suffix c Hkey Hsuffix Hloc. apply Hhit.
  by rewrite normalize_location_eq, Hloc,
       (known_key_normalized key suffix c Hkey Hsuffix).
Qed.

(** C5. When the table does not know the location and the geocoding
    request fails at the transport (a timeout, a refused connection, an
    error status) or is answered by an empty result set, the resolver
    raises the one error it has for a location that is not found, a
    [ValueError] whose message holds the location it was given. *)
Theorem geocode_failure_not_found (location : string) (w : World) :
  let r := Cli.geocoder_request (Cli.geocoder_query location) in
  Cli.TEXAS_LOCATIONS !! Cli.normalize_location location = None ->
  match outcome w r with
  | Failed _ => True
  | Body results => truthy results = false
  end ->
  Cli.geocode_location float_of_str location w
  = (Err (ValueError (Cli.geocode_error (Cli.geocoder_query location))),
     sent r w) /\
  exists tail,
    Cli.geocode_error (Cli.geocoder_query location)
    = "Could not geocode: " +:+ location +:+ tail.
Proof.
  intros r Hmiss Hout. split.
  - unfold Cli.geocode_location. rewrite Hmiss.
    unfold bind, try_except, get_json, lift, raise. fold r.
    destruct (outcome w r) as [e|results]; simpl; [done|].
    unfold Cli.first_coordinates. by rewrite Hout.
  - unfold Cli.geocode_error, Cli.geocoder_query.
    destruct (_ && _); [|by eexists].
    eexists. by rewrite app_assoc.
Qed.

End Geocode.

Lemma known_location_offline_witness :
  Cli.geocode_location (fun _ => None) "  Fort Worth, TX " offline
  = (Ok (Dec 327555 4, Dec (-973308) 4), offline).
Proof.
  apply (proj2 (known_location_offline (fun _ => None) "  Fort Worth, TX "
                  offline) "fort worth" ", tx").
  - vm_compute. reflexivity.
  - simpl. auto.
  - vm_compute. reflexivity.
Defined.

Lemma geocode_failure_not_found_witness :
  Cli.geocode_location (fun _ => None) "Nowhereville" offline
  = (Err (ValueError
            "Could not geocode: Nowhereville, TX. Use --coords or a major Texas city."),
     sent (Cli.geocoder_request "Nowhereville, TX") offline).
Proof.
  apply (proj1 (geocode_failure_not_found (fun _ => None) "Nowhereville"
                  offline ltac:(vm_compute; reflexivity) I)).
Defined.

(** ** The web endpoint *)

Section WebSearch.

Variable int_of_str : string -> option Z.

Lemma web_dallas : Web.TEXAS_LOCATIONS !! "dallas" = Some dallas.
Proof. vm_compute. reflexivity. Qed.

Lemma web_parse_doctors_ok input :
  Web.parse_doctors input = Ok (map doctor_of (entries input)).
Proof.
  change (Web.parse_doctors input) with (Cli.parse_doctors input).
  unfold Cli.parse_doctors. by rewrite parse_entries_spec.
Qed.

(** A radius that is no integer is the error of the request, before any
    lookup. *)
Lemma web_search_bad_radius q w e :
  Web.radius_of int_of_str q = Err e ->
  Web.search int_of_str q w = (Err e, w).
Proof. intros H. unfold Web.search, bind, lift. by rewrite H. Qed.

(** Every run of [search] whose radius is an integer is the loop over
    the parsed doctors, at the coordinates the table gives for the
    lower-cased location, Dallas when it has none. *)
Lemma web_search_run q w r :
  Web.radius_of int_of_str q = Ok r ->
  let where_ :=
    default dallas
      (Web.TEXAS_LOCATIONS !! lower (default "dallas" (Web.location q))) in
  Web.search int_of_str q w
  = Web.search_each
      (map doctor_of (entries (default EmptyString (Web.doctors q))))
      where_.1 where_.2 r (Web.given_city (Web.city q)) [] w.
Proof.
  intros Hr. unfold Web.search, bind, lift. rewrite Hr.
  unfold Web.coordinates_of. rewrite web_dallas, web_parse_doctors_ok.
  by destruct (Web.TEXAS_LOCATIONS !! _).
Qed.

(** C10. For a [location] parameter whose lower-cased value is not a key
    of the table of the web form, [search] raises nothing about the
    location: when the radius given is no integer it raises the error
    of that radius and issues no request; otherwise it completes with
    the bundles of the doctors, whose links carry the coordinates of
    Dallas, (32.7767, -96.797), and the only requests it issues are the
    registry lookups, one per doctor. *)
Theorem web_unknown_location_is_dallas (q : Web.Query) (w : World)
    (loc : string) :
  let city := Web.given_city (Web.city q) in
  Web.location q = Some loc ->
  Web.TEXAS_LOCATIONS !! lower loc = None ->
  match Web.radius_of int_of_str q with
  | Err e => Web.search int_of_str q w = (Err e, w)
  | Ok r =>
      exists doctors bundles,
        Web.parse_doctors (default EmptyString (Web.doctors q)) = Ok doctors /\
        Web.search int_of_str q w
        = (Ok bundles, sent_all (map (doctor_request city) doctors) w) /\
        length bundles = length doctors /\
        (forall i d, doctors !! i = Some d ->
           exists b, bundles !! i = Some b /\
             Web.Bundle.bcbstx_urls b
             = bcbstx_links (Doctor.name d)
                 (Dec 327767 4) (Dec (-967970) 4) r) /\
        Forall (fun req => url req = Web.NPI_API)
          (map (doctor_request city) doctors)
  end.
Proof.
  intros city Hloc Hmiss.
  destruct (Web.radius_of int_of_str q) as [r|e] eqn:Hr;
    [|by apply web_search_bad_radius].
  set (doctors := map doctor_of (entries (default EmptyString (Web.doctors q)))).
  destruct (web_search_each_run (Dec 327767 4) (Dec (-967970) 4) r
              (Web.given_city (Web.city q)) doctors [] w)
    as (bs & Hrun & Hlen & Hnth).
  exists doctors, bs. split_and!.
  - apply web_parse_doctors_ok.
  - rewrite (web_search_run q w r Hr), Hloc. simpl default.
    rewrite Hmiss. exact Hrun.
  - done.
  - intros i d Hd. eexists. split; [by apply Hnth|]. reflexivity.
  - apply Forall_forall. intros req [d [-> _]]%list_elem_of_fmap.
    reflexivity.
Qed.

End WebSearch.

Lemma web_unknown_location_is_dallas_witness :
  exists doctors bundles,
    Web.parse_doctors "Jane Doe, Jane Doe" = Ok doctors /\
    Web.search (fun _ => Some 40)
      {| Web.doctors := Some "Jane Doe, Jane Doe";
         Web.location := Some "Garland";
         Web.radius := Some "40";
         Web.city := None |}
      sample_world
    = (Ok bundles,
       sent_all (map (doctor_request None) doctors) sample_world) /\
    length bundles = length doctors /\
    (forall i d, doctors !! i = Some d ->
       exists b, bundles !! i = Some b /\
         Web.Bundle.bcbstx_urls b
         = bcbstx_links (Doctor.name d) (Dec 327767 4) (Dec (-967970) 4) 40) /\
    Forall (fun req => url req = Web.NPI_API)
      (map (doctor_request None) doctors).
Proof.
  apply (web_unknown_location_is_dallas (fun _ => Some 40)
           {| Web.doctors := Some "Jane Doe, Jane Doe";
              Web.location := Some "Garland";
              Web.radius := Some "40";
              Web.city := None |}
           sample_world "Garland").
  - reflexivity.
  - vm_compute. reflexivity.
Defined.

Example web_sample_run :
  (fun bs => map (fun b => (Web.Bundle.doctor b, Web.Bundle.npi_found b,
                            Web.Bundle.npi_count b,
                            length (Web.Bundle.npi_results b))) bs)
  <$> match fst (Web.search (fun _ => Some 40)
                   {| Web.doctors := Some "Jane Doe, Jane Doe";
                      Web.location := Some "Garland";
                      Web.radius := Some "40";
                      Web.city := None |}
                   sample_world) with
      | Ok bs => Some bs
      | Err _ => None
      end
  = Some [("Jane Doe", true, 6%nat, 5%nat); ("Jane Doe", false, 0%nat, 0%nat)].
Proof. vm_compute. reflexivity. Qed.

(** The end-to-end case of the specification: a doctor the registry
    does not know, looked up from Austin. *)
Example web_austin_run :
  fst (Web.search (fun _ => None)
         {| Web.doctors := Some "Dr. Jane Doe (Cardiology)";
            Web.location := Some "Austin";
            Web.radius := None;
            Web.city := None |}
         offline)
  = Ok [web_not_found (Doctor.mk "Dr. Jane Doe" (Some "Cardiology"))
          (bcbstx_links "Dr. Jane Doe" (Dec 302672 4) (Dec (-977431) 4) 25)].
Proof. vm_compute. reflexivity. Qed.

Example cli_austin_run :
  fst (Cli.main (fun _ => None)
         {| Cli.doctors := Some "Dr. Jane Doe (Cardiology)";
            Cli.file := None;
            Cli.location := Some "Austin, TX";
            Cli.coords := None;
            Cli.city := None;
            Cli.radius := 25 |}
         offline)
  = Ok (Cli.Report
          [cli_not_found (Doctor.mk "Dr. Jane Doe" (Some "Cardiology"))
             (bcbstx_links "Dr. Jane Doe" (Dec 302672 4) (Dec (-977431) 4)
                25)]).
Proof. vm_compute. reflexivity. Qed.

Example cli_unknown_location_exit :
  fst (Cli.main (fun _ => None)
         {| Cli.doctors := Some "Jane Doe";
            Cli.file := None;
            Cli.location := Some "Nowhereville";
            Cli.coords := None;
            Cli.city := None;
            Cli.radius := 25 |}
         offline)
  = Ok (Cli.Exit 1
          "Error: Could not geocode: Nowhereville, TX. Use --coords or a major Texas city.").
Proof. vm_compute. reflexivity. Qed.

(** ** Registry failures *)

(** C6. When the registry request of a doctor fails at the transport (a
    timeout, a refused connection, an error status), [search_npi]
    returns the empty list in both programs and raises nothing; it
    returns the same for a body without matches, so that its caller
    cannot tell the two apart.  The bundle of that doctor has a false
    found-flag and a zero count, and both loops go on with the doctors
    that remain. *)
Theorem registry_failure_is_not_found (d : Doctor.t) (lat lon : pyfloat)
    (radius : Z) (city : option string) (w : World) (e : request_error) :
  let r := doctor_request city d in
  let links := bcbstx_links (Doctor.name d) lat lon radius in
  outcome w r = Failed e ->
  Cli.search_npi (Doctor.name d) "TX" city (Doctor.specialty d) 10 w
  = (Ok [], sent r w) /\
  Web.search_npi (Doctor.name d) "TX" city (Doctor.specialty d) 10 w
  = (Ok [], sent r w) /\
  (forall w0, outcome w0 r = Body no_match ->
     Cli.search_npi (Doctor.name d) "TX" city (Doctor.specialty d) 10 w0
     = (Ok [], sent r w0) /\
     Web.search_npi (Doctor.name d) "TX" city (Doctor.specialty d) 10 w0
     = (Ok [], sent r w0)) /\
  Cli.check_doctor d lat lon radius city w
  = (Ok (cli_not_found d links), sent r w) /\
  Web.search_one d lat lon radius city w
  = (Ok (web_not_found d links), sent r w) /\
  (forall rest acc,
     Cli.check_each (d :: rest) lat lon radius city acc w
     = Cli.check_each rest lat lon radius city
         (acc ++ [cli_not_found d links]) (sent r w)) /\
  (forall rest acc,
     Web.search_each (d :: rest) lat lon radius city acc w
     = Web.search_each rest lat lon radius city
         (acc ++ [web_not_found d links]) (sent r w)).
Proof.
  intros r links Hfail. subst r.
  assert (Cli.check_doctor d lat lon radius city w
          = (Ok (cli_not_found d links), sent (doctor_request city d) w))
    as Hcli.
  { rewrite cli_check_doctor_run. by rewrite Hfail. }
  assert (Web.search_one d lat lon radius city w
          = (Ok (web_not_found d links), sent (doctor_request city d) w))
    as Hweb.
  { rewrite web_search_one_run. by rewrite Hfail. }
  unfold doctor_request in *.
  split_and!; try done.
  - rewrite cli_search_npi_run. by rewrite Hfail.
  - rewrite web_search_npi_run. by rewrite Hfail.
  - intros w0 H0. split.
    + rewrite cli_search_npi_run. by rewrite H0.
    + rewrite web_search_npi_run. by rewrite H0.
  - intros rest acc. simpl. unfold bind. by rewrite Hcli.
  - intros rest acc. simpl. unfold bind. by rewrite Hweb.
Qed.

Lemma registry_failure_is_not_found_witness :
  Cli.search_npi "Jane Doe" "TX" None None 10 offline
  = (Ok [], sent (doctor_request None (Doctor.mk "Jane Doe" None)) offline).
Proof.
  apply (proj1 (registry_failure_is_not_found (Doctor.mk "Jane Doe" None)
                  dallas.1 dallas.2 25 None offline Timeout eq_refl)).
Defined.

(** ** Percent-encoding and the links *)

Section Encoding.

Lemma all_chars_app p s t :
  all_chars p (s +:+ t) = all_chars p s && all_chars p t.
Proof.
  induction s as [|c s IH]; [done|].
  rewrite app_cons. simpl. by rewrite IH, andb_assoc.
Qed.

Lemma quote_char_encoded c : all_chars encoded_char (quote_char c) = true.
Proof. destruct c as [[] [] [] [] [] [] [] []]; vm_compute; reflexivity. Qed.

(** A quoted text holds nothing but unreserved characters, slashes and
    percent signs. *)
Lemma quote_encoded s : all_chars encoded_char (quote s) = true.
Proof.
  induction s as [|c s IH]; [done|]. simpl.
  by rewrite all_chars_app, quote_char_encoded, IH.
Qed.

Lemma all_chars_has_char p c s :
  all_chars p s = true -> p c = false -> has_char c s = false.
Proof.
  intros Hs Hc. induction s as [|a s IH]; [done|].
  simpl in Hs. apply andb_true_iff in Hs as [Ha Hs].
  rewrite has_char_cons, (IH Hs).
  destruct (Ascii.eqb_spec a c) as [->|]; [congruence|done].
Qed.

(** C8. Each BCBSTX template is filled with the percent-encoded name of
    the doctor and with the latitude, the longitude and the radius as
    Python prints them, in both programs; an encoded name holds no
    space.  For John Smith, radius 25 and (32.78, -96.80) both links
    read [John%20Smith], [32.78,-96.8] and [radius=25].  The UHC links
    are the configured ones, unchanged, in every bundle of the web
    form.  Both generators are functions of their arguments alone: the
    one request a turn of the loop issues is the registry lookup. *)
Theorem links_are_templated (name : string) (lat lon : pyfloat) (radius : Z) :
  Cli.generate_bcbstx_urls name lat lon radius
  = Ok (bcbstx_links name lat lon radius) /\
  Web.generate_bcbstx_urls name lat lon radius
  = Ok (bcbstx_links name lat lon radius) /\
  all_chars encoded_char (quote name) = true /\
  has_char " " (quote name) = false /\
  Web.generate_uhc_urls = Web.UHC_SEARCH_URLS /\
  (forall specialty city w,
     exists b,
       Web.search_one (Doctor.mk name specialty) lat lon radius city w
       = (Ok b, sent (doctor_request city (Doctor.mk name specialty)) w) /\
       Web.Bundle.bcbstx_urls b = bcbstx_links name lat lon radius /\
       Web.Bundle.uhc_urls b = Web.UHC_SEARCH_URLS) /\
  Cli.generate_bcbstx_urls "John Smith" (Dec 3278 2) (Dec (-9680) 2) 25
  = Ok [ ("blue_advantage_hmo",
          Link.mk "Blue Advantage HMO"
            "https://my.providerfinderonline.com/search/name/John%20Smith?ci=tx-blueadvantage-retail&network_id=1000128&geo_location=32.78,-96.8&locale=en&corp_code=TX&radius=25");
         ("my_blue_health",
          Link.mk "My Blue Health"
            "https://my.providerfinderonline.com/search/name/John%20Smith?ci=tx-myblue-health&network_id=240000127&geo_location=32.78,-96.8&locale=en&corp_code=TX&radius=25") ].
Proof.
  split_and!.
  - apply cli_generate_bcbstx_urls.
  - apply web_generate_bcbstx_urls.
  - apply quote_encoded.
  - apply (all_chars_has_char encoded_char); [apply quote_encoded|done].
  - reflexivity.
  - intros specialty city w. eexists. rewrite web_search_one_run.
    split_and!; reflexivity.
  - vm_compute. reflexivity.
Qed.

End Encoding.

(** ** Normalizing a registry record *)

Section Normalize.

Lemma get_dict d k v : is_dict d -> get d k v = Ok (field_or v k d).
Proof. by destruct d. Qed.

(** [next_where] with a test that decides [P] on the elements. *)
Lemma next_where_selected (P : JSON -> Prop) p xs dflt :
  Forall (fun x => (p x = Ok true /\ P x) \/ (p x = Ok false /\ ~ P x)) xs ->
  exists a, next_where p xs dflt = Ok a /\
    ((exists before after,
         xs = before ++ a :: after /\ Forall (fun y => ~ P y) before /\ P a)
     \/ (Forall (fun y => ~ P y) xs /\ a = dflt)).
Proof.
  induction 1 as [|x xs Hx _ IH]; simpl.
  { exists dflt. split; [done|]. right. by split. }
  destruct Hx as [[-> HP]|[-> HP]]; simpl.
  - exists x. split; [done|]. left. exists [], xs. by split_and!.
  - destruct IH as (a & -> & [(before & after & -> & Hb & Ha)|[Hnone ->]]).
    + exists a. split; [done|]. left. exists (x :: before), after.
      split_and!; [done| |done]. by constructor.
    + exists dflt. split; [done|]. right. split; [|done]. by constructor.
Qed.

Lemma selected_of_next (P : JSON -> Prop) xs a :
  (exists before after,
      xs = before ++ a :: after /\ Forall (fun y => ~ P y) before /\ P a)
   \/ (Forall (fun y => ~ P y) xs
       /\ a = match xs with x :: _ => x | [] => JObj [] end) ->
  selected P xs a.
Proof.
  intros [(before & after & -> & Hb & Ha)|[Hnone ->]].
  - by constructor.
  - destruct xs; by constructor.
Qed.

Lemma selected_dict P xs a : Forall is_dict xs -> selected P xs a -> is_dict a.
Proof.
  intros Hxs Hsel. destruct Hsel as [before x after _ _|x rest _|].
  - apply Forall_app in Hxs as [_ Hxs]. by inversion Hxs.
  - by inversion Hxs.
  - done.
Qed.

Lemma practice_address_selected addrs :
  Forall is_dict addrs ->
  exists a, Cli.practice_address (JArr addrs) = Ok a /\
            selected is_location addrs a.
Proof.
  intros Hd. unfold Cli.practice_address.
  set (dflt := match addrs with x :: _ => x | [] => JObj [] end).
  assert (forall p, rbind (iter (JArr addrs))
            (fun candidates =>
               rbind (if truthy (JArr addrs) then first_item (JArr addrs)
                      else Ok (JObj []))
                 (fun default => next_where p candidates default))
          = next_where p addrs dflt) as ->.
  { intros p. by destruct addrs. }
  destruct (next_where_selected is_location
              (fun a => rbind (get a "address_purpose" JNull)
                          (fun purpose => Ok (eq_str purpose "LOCATION")))
              addrs dflt) as (a & Ha & Hsel).
  { eapply Forall_impl; [exact Hd|]. intros [| | | | | |kv]; try done.
    intros _. unfold is_location. simpl.
    destruct (assoc "address_purpose" kv) as [[| | | |t| |]|]; simpl;
      try (right; by split).
    destruct (String.eqb_spec t "LOCATION") as [->|Hne].
    - by left.
    - right. split; [done|]. by intros [= ->]. }
  exists a. split; [done|]. by apply selected_of_next.
Qed.

Lemma primary_taxonomy_selected taxes :
  Forall is_dict taxes ->
  exists t, Cli.primary_taxonomy (JArr taxes) = Ok t /\
            selected is_primary taxes t.
Proof.
  intros Hd. unfold Cli.primary_taxonomy.
  set (dflt := match taxes with x :: _ => x | [] => JObj [] end).
  assert (forall p, rbind (iter (JArr taxes))
            (fun candidates =>
               rbind (if truthy (JArr taxes) then first_item (JArr taxes)
                      else Ok (JObj []))
                 (fun default => next_where p candidates default))
          = next_where p taxes dflt) as ->.
  { intros p. by destruct taxes. }
  destruct (next_where_selected is_primary
              (fun t => rbind (get t "primary" JNull)
                          (fun flag => Ok (truthy flag)))
              taxes dflt) as (t & Ht & Hsel).
  { eapply Forall_impl; [exact Hd|]. intros [| | | | | |kv]; try done.
    intros _. unfold is_primary. simpl.
    destruct (assoc "primary" kv) as [v|]; simpl.
    - destruct (truthy v) eqn:Hv.
      + left. split; [done|]. by exists v.
      + right. split; [done|]. intros (v' & [= <-] & Hv'). congruence.
    - right. split; [done|]. by intros (v' & ? & _). }
  exists t. split; [done|]. by apply selected_of_next.
Qed.

End Normalize.

Section WebAgainstCli.

Ltac bind_step :=
  match goal with
  | |- context [rbind (Ok ?a) _] => cbn [rbind]
  | |- context [rbind (Err ?e) _] => cbn [rbind]
  | |- context [rbind ?m _] => destruct m as [?|?] eqn:?; cbn [rbind]
  end.

Lemma web_normalize_row sp r :
  Web.normalize sp r
  = rbind (Cli.normalize sp r) (fun o => Ok (Cli.row_of <$> o)).
Proof.
  unfold Web.normalize, Cli.normalize.
  change Web.practice_address with Cli.practice_address.
  change Web.primary_taxonomy with Cli.primary_taxonomy.
  change Web.filtered_out with Cli.filtered_out.
  do 7 (bind_step; [|reflexivity]).
  match goal with |- context [if ?b then _ else _] => destruct b end;
    [reflexivity|].
  do 4 (bind_step; [|reflexivity]).
  match goal with |- context [get ?a "city" _] => destruct a end;
    try reflexivity.
  cbn [get rbind].
  match goal with |- context [slice_to ?n ?v] => destruct (slice_to n v) end;
    reflexivity.
Qed.

Lemma web_collect_rows sp rs acc :
  Web.collect sp rs (map Cli.row_of acc)
  = rbind (Cli.collect sp rs acc) (fun l => Ok (map Cli.row_of l)).
Proof.
  revert acc. induction rs as [|r rs IH]; intros acc; [done|].
  cbn [Web.collect Cli.collect]. rewrite web_normalize_row.
  destruct (Cli.normalize sp r) as [[x|]|e]; cbn [rbind fmap option_fmap option_map];
    [|apply IH|done].
  rewrite <- IH. by rewrite map_app.
Qed.

(** The rows of the web form are the records of the command-line tool
    as [check_doctor] shows them, and where the latter raises the former
    gives up too. *)
Lemma web_records_of_rows sp data :
  Web.records_of sp data
  = rbind (Cli.records_of sp data) (fun l => Ok (map Cli.row_of l)).
Proof.
  unfold Web.records_of, Cli.records_of.
  do 2 (bind_step; [|reflexivity]).
  apply (web_collect_rows sp _ []).
Qed.

Lemma web_answer_rows sp o :
  web_answer sp o
  = match cli_answer sp o with
    | Ok l => map Cli.row_of l
    | Err _ => []
    end.
Proof.
  destruct o as [e|doc]; [done|]. simpl. rewrite web_records_of_rows.
  by destruct (Cli.records_of sp doc).
Qed.

End WebAgainstCli.

(** C4. For a registry record whose addresses and taxonomies are lists
    of objects, the practice address is the first address whose purpose
    tag is [LOCATION], else the first address, else the empty object;
    the primary taxonomy is the first taxonomy flagged primary, else the
    first taxonomy, else the empty object.  The record that both
    programs make of it has, as specialty, the description of that
    taxonomy, or [Unknown] when the taxonomy has none, and, as postal
    code, the first five characters of the postal code of that
    address. *)
Theorem record_normalization (sp : option string) (r : JSON)
    (addrs taxes : list JSON) :
  is_dict r ->
  is_dict (field_or (JObj []) "basic" r) ->
  field_or (JArr []) "addresses" r = JArr addrs -> Forall is_dict addrs ->
  field_or (JArr []) "taxonomies" r = JArr taxes -> Forall is_dict taxes ->
  exists addr tax,
    selected is_location addrs addr /\
    selected is_primary taxes tax /\
    forall postal,
      field_or (JStr EmptyString) "postal_code" addr = JStr postal ->
      Cli.filtered_out sp (field_or (JStr "Unknown") "desc" tax) = Ok false ->
      Cli.normalize sp r = Ok (Some (normalized r addr tax postal)) /\
      Web.normalize sp r
      = Ok (Some (Cli.row_of (normalized r addr tax postal))) /\
      Cli.NPIResult.specialty (normalized r addr tax postal)
      = field_or (JStr "Unknown") "desc" tax /\
      Cli.NPIResult.zip_code (normalized r addr tax postal)
      = JStr (str_take 5 postal).
Proof.
  intros Hr Hb Ha Hda Ht Hdt.
  destruct (practice_address_selected addrs Hda) as (addr & Hpa & Hsa).
  destruct (primary_taxonomy_selected taxes Hdt) as (tax & Hpt & Hst).
  exists addr, tax. split_and!; [done..|]. intros postal Hpostal Hfilter.
  assert (Cli.normalize sp r = Ok (Some (normalized r addr tax postal))) as Hn.
  { pose proof (selected_dict _ _ _ Hda Hsa) as Hdaddr.
    pose proof (selected_dict _ _ _ Hdt Hst) as Hdtax.
    unfold Cli.normalize. rewrite !(get_dict r) by done. cbn [rbind].
    rewrite Ha, Ht, Hpa, Hpt. cbn [rbind].
    rewrite (get_dict tax) by done. cbn [rbind]. rewrite Hfilter. cbn [rbind].
    rewrite !(get_dict (field_or (JObj []) "basic" r)) by done.
    rewrite !(get_dict addr) by done. cbn [rbind].
    rewrite Hpostal. reflexivity. }
  split_and!; [done| |done..].
  rewrite web_normalize_row, Hn. reflexivity.
Qed.

Lemma record_normalization_witness :
  exists addr tax,
    selected is_location
      [JObj [("address_purpose", JStr "MAILING");
             ("city", JStr "AUSTIN"); ("state", JStr "TX");
             ("postal_code", JStr "787011234")];
       JObj [("address_purpose", JStr "LOCATION");
             ("address_1", JStr "1 MAIN ST");
             ("city", JStr "DALLAS"); ("state", JStr "TX");
             ("postal_code", JStr "752011234");
             ("telephone_number", JStr "214-555-0100")]] addr /\
    selected is_primary
      [JObj [("desc", JStr "Internal Medicine"); ("primary", JBool false)];
       JObj [("desc", JStr "Cardiovascular Disease");
             ("primary", JBool true)]] tax /\
    forall postal,
      field_or (JStr EmptyString) "postal_code" addr = JStr postal ->
      Cli.filtered_out (Some "cardio")
        (field_or (JStr "Unknown") "desc" tax) = Ok false ->
      Cli.normalize (Some "cardio") (sample_record "1")
      = Ok (Some (normalized (sample_record "1") addr tax postal)) /\
      Web.normalize (Some "cardio") (sample_record "1")
      = Ok (Some (Cli.row_of (normalized (sample_record "1") addr tax postal))) /\
      Cli.NPIResult.specialty (normalized (sample_record "1") addr tax postal)
      = field_or (JStr "Unknown") "desc" tax /\
      Cli.NPIResult.zip_code (normalized (sample_record "1") addr tax postal)
      = JStr (str_take 5 postal).
Proof.
  apply (record_normalization (Some "cardio") (sample_record "1")).
  - exact I.
  - exact I.
  - reflexivity.
  - repeat constructor.
  - reflexivity.
  - repeat constructor.
Defined.

Example normalize_sample :
  Cli.normalize (Some "cardio") (sample_record "1")
  = Ok (Some {| Cli.NPIResult.npi := JStr "1";
                Cli.NPIResult.name := "JANE DOE";
                Cli.NPIResult.credential := JStr "MD";
                Cli.NPIResult.specialty := JStr "Cardiovascular Disease";
                Cli.NPIResult.address := JStr "1 MAIN ST";
                Cli.NPIResult.city := JStr "DALLAS";
                Cli.NPIResult.state := JStr "TX";
                Cli.NPIResult.zip_code := JStr "75201";
                Cli.NPIResult.phone := JStr "214-555-0100" |}) /\
  Cli.normalize (Some "Family") (sample_record "1") = Ok None /\
  Cli.normalize None (JObj []) 
  = Ok (Some {| Cli.NPIResult.npi := JStr EmptyString;
                Cli.NPIResult.name := EmptyString;
                Cli.NPIResult.credential := JStr EmptyString;
                Cli.NPIResult.specialty := JStr "Unknown";
                Cli.NPIResult.address := JStr EmptyString;
                Cli.NPIResult.city := JStr EmptyString;
                Cli.NPIResult.state := JStr EmptyString;
                Cli.NPIResult.zip_code := JStr EmptyString;
                Cli.NPIResult.phone := JStr EmptyString |}).
Proof. split_and!; reflexivity. Qed.

(** ** The two front ends *)

Section FrontEnds.

(** No key is written twice in either table, so that a lookup in the
    map is a lookup in the literal. *)
Lemma table_keys_distinct :
  NoDup (map fst Cli.TEXAS_LOCATIONS_items) /\
  NoDup (map fst Web.TEXAS_LOCATIONS_items).
Proof.
  split.
  - apply (bool_decide_unpack (NoDup (map fst Cli.TEXAS_LOCATIONS_items))).
    vm_compute. exact I.
  - apply (bool_decide_unpack (NoDup (map fst Web.TEXAS_LOCATIONS_items))).
    vm_compute. exact I.
Qed.

Lemma table_sizes :
  size Cli.TEXAS_LOCATIONS = 37%nat /\ size Web.TEXAS_LOCATIONS = 12%nat.
Proof. split; vm_compute; reflexivity. Qed.

Lemma web_table_in_cli_table :
  Forall (fun item => Cli.TEXAS_LOCATIONS !! fst item = Some (snd item))
    Web.TEXAS_LOCATIONS_items.
Proof. repeat (constructor; [vm_compute; reflexivity|]). constructor. Qed.

(** C9 does not hold as it is stated.  The table of the web form and
    the error handling of its registry search are not those of the
    command-line tool: Garland is known to
    the latter only, and a body that is no object makes the latter raise
    where the former finds nothing. *)
Lemma front_ends_differ :
  (Cli.TEXAS_LOCATIONS !! "garland" = Some (Dec 329126 4, Dec (-966389) 4) /\
   Web.TEXAS_LOCATIONS !! "garland" = None) /\
  (Cli.search_npi "Jane Doe" "TX" None None 10 ill_shaped
   = (Err OtherError, sent (registry_request "Jane Doe" "TX" None 10) ill_shaped) /\
   Web.search_npi "Jane Doe" "TX" None None 10 ill_shaped
   = (Ok [], sent (registry_request "Jane Doe" "TX" None 10) ill_shaped)) /\
  ~ (forall key, Web.TEXAS_LOCATIONS !! key = Cli.TEXAS_LOCATIONS !! key) /\
  ~ (forall name state city specialty limit w,
        Web.search_npi name state city specialty limit w
        = shown (Cli.search_npi name state city specialty limit w)) /\
  ~ shared_logic.
Proof.
  assert (Cli.TEXAS_LOCATIONS !! "garland"
          = Some (Dec 329126 4, Dec (-966389) 4)) as Hcli
    by (vm_compute; reflexivity).
  assert (Web.TEXAS_LOCATIONS !! "garland" = None) as Hweb
    by (vm_compute; reflexivity).
  assert (Cli.search_npi "Jane Doe" "TX" None None 10 ill_shaped
          = (Err OtherError,
             sent (registry_request "Jane Doe" "TX" None 10) ill_shaped))
    as Hraise by (by rewrite cli_search_npi_run).
  assert (Web.search_npi "Jane Doe" "TX" None None 10 ill_shaped
          = (Ok [],
             sent (registry_request "Jane Doe" "TX" None 10) ill_shaped))
    as Hquiet by (by rewrite web_search_npi_run).
  split_and!; try done.
  - intros Htable. specialize (Htable "garland"). congruence.
  - intros Hsearch.
    specialize (Hsearch "Jane Doe" "TX" None None 10 ill_shaped).
    rewrite Hraise, Hquiet in Hsearch. discriminate.
  - intros (_ & Htable & _). specialize (Htable "garland"). congruence.
Qed.

(** C9, as amended.  The two front ends parse doctors, split names,
    build the registry request and fill the BCBSTX templates alike, and
    the location table of the web form is a part of the table of the
    command-line tool.  Their registry searches issue the same request;
    the web form returns the records of the command-line tool as rows
    where the latter returns, the empty list with it on a transport
    error, and the empty list where the latter raises. *)
Theorem front_ends_share :
  (forall input, Web.parse_doctors input = Cli.parse_doctors input) /\
  (forall name, Web.split_name name = Cli.split_name name) /\
  (forall first last state city limit,
      Web.npi_request first last state city limit
      = Cli.npi_request first last state city limit) /\
  (forall name lat lon radius,
      Web.generate_bcbstx_urls name lat lon radius
      = Cli.generate_bcbstx_urls name lat lon radius) /\
  Web.TEXAS_LOCATIONS ⊆ Cli.TEXAS_LOCATIONS /\
  (forall name state city specialty limit w,
      Web.search_npi name state city specialty limit w
      = (Ok match fst (Cli.search_npi name state city specialty limit w) with
            | Ok found => map Cli.row_of found
            | Err _ => []
            end,
         snd (Cli.search_npi name state city specialty limit w))) /\
  (forall name state city specialty limit w e,
      outcome w (registry_request name state city limit) = Failed e ->
      fst (Cli.search_npi name state city specialty limit w) = Ok [] /\
      fst (Web.search_npi name state city specialty limit w) = Ok []).
Proof.
  split_and!; try reflexivity.
  - apply map_subseteq_spec. intros key c Hkey.
    apply elem_of_list_to_map_2, list_elem_of_In in Hkey.
    pose proof web_table_in_cli_table as H.
    rewrite List.Forall_forall in H. exact (H _ Hkey).
  - intros name state city specialty limit w.
    rewrite web_search_npi_run, cli_search_npi_run. simpl.
    by rewrite web_answer_rows.
  - intros name state city specialty limit w e Hfail.
    rewrite web_search_npi_run, cli_search_npi_run. simpl.
    by rewrite Hfail.
Qed.

End FrontEnds.

(** * Further properties *)

(** ** More on strings *)

Section MoreStrings.

Implicit Types (s t u : string) (c : ascii).

Lemma has_char_take_any c n s :
  has_char c s = false -> has_char c (str_take n s) = false.
Proof.
  revert s. induction n as [|n IH]; intros [|a s]; simpl; try done.
  rewrite !has_char_cons. intros [-> Hs]%orb_false_elim. by apply IH.
Qed.

Lemma has_char_drop_any c n s :
  has_char c s = false -> has_char c (str_drop n s) = false.
Proof.
  revert s. induction n as [|n IH]; intros [|a s]; simpl; try done.
  rewrite has_char_cons. intros [_ Hs]%orb_false_elim. by apply IH.
Qed.

Lemma has_char_lstrip c s :
  has_char c s = false -> has_char c (lstrip s) = false.
Proof.
  induction s as [|a s IH]; [done|]. simpl. intros H.
  destruct (isspace a); [|done].
  rewrite has_char_cons in H. apply orb_false_elim in H as [_ H]. by apply IH.
Qed.

Lemma has_char_rstrip c s :
  has_char c s = false -> has_char c (rstrip s) = false.
Proof.
  induction s as [|a s IH]; [done|]. simpl.
  rewrite has_char_cons. intros [Ha Hs]%orb_false_elim.
  destruct (isspace a && is_empty (rstrip s)); [done|].
  by rewrite has_char_cons, Ha, IH.
Qed.

Lemma has_char_strip c s :
  has_char c s = false -> has_char c (strip s) = false.
Proof. intros H. by apply has_char_rstrip, has_char_lstrip. Qed.

Lemma has_char_slice c i j s :
  has_char c (str_take j s) = false -> has_char c (slice i j s) = false.
Proof.
  intros H. destruct (Nat.le_gt_cases i j) as [Hij|Hij].
  - rewrite (take_split i j) in H by done. rewrite has_char_app in H.
    by apply orb_false_elim in H as [_ H].
  - rewrite slice_empty by lia. done.
Qed.

(** Splitting a text with a separator in the middle splits both sides. *)
Lemma split_app sep s t :
  split sep (s +:+ String sep t) = split sep s ++ split sep t.
Proof.
  induction s as [|a s IH]; simpl.
  - by rewrite Ascii.eqb_refl.
  - rewrite ?app_cons. simpl. destruct (Ascii.eqb a sep).
    + by rewrite IH.
    + rewrite IH. pose proof (split_not_nil sep s).
      by destruct (split sep s).
Qed.

(** Replacing one character by another is done place by place. *)
Lemma replace_char c d s :
  replace (String c EmptyString) (String d EmptyString) s = subst_char c d s.
Proof.
  unfold replace. simpl.
  induction s as [|a s IH]; [done|]. simpl.
  rewrite (Ascii.eqb_sym c a). destruct (Ascii.eqb a c); simpl.
  - by rewrite IH.
  - by rewrite IH.
Qed.

Lemma subst_char_app c d s t :
  subst_char c d (s +:+ t) = subst_char c d s +:+ subst_char c d t.
Proof.
  induction s as [|a s IH]; [done|]. rewrite !app_cons. simpl.
  by rewrite IH.
Qed.

End MoreStrings.

(** ** More on the doctor parser *)

Section MoreParseDoctors.

Lemma cli_parse_doctors_ok input :
  Cli.parse_doctors input = Ok (map doctor_of (entries input)).
Proof. unfold Cli.parse_doctors. by rewrite parse_entries_spec. Qed.

Lemma entries_app a b :
  entries (a +:+ "," +:+ b) = entries a ++ entries b.
Proof.
  unfold entries. change ("," +:+ b) with (String "," b).
  by rewrite split_app, map_app, filter_app.
Qed.

(** An entry is a trimmed piece without comma that is not empty. *)
Lemma entries_spec input :
  Forall (fun e => e <> EmptyString /\ strip e = e /\ has_char "," e = false)
    (entries input).
Proof.
  unfold entries. apply Forall_forall. intros e He.
  apply list_elem_of_filter in He as [Hne He].
  apply list_elem_of_fmap in He as (p & -> & Hp).
  split_and!; [done | apply strip_idemp |].
  apply has_char_strip.
  pose proof (split_no_sep "," input) as Hall.
  rewrite Forall_forall in Hall. by apply Hall.
Qed.

Lemma doctor_of_tidy e :
  e <> EmptyString -> strip e = e -> has_char "," e = false ->
  tidy_doctor (doctor_of e).
Proof.
  intros Hne Hstrip Hcomma. unfold doctor_of, tidy_doctor.
  destruct (index "(" e) as [i|] eqn:Hi; [|done].
  destruct (index ")" e) as [j|] eqn:Hj; [|done].
  destruct (index_Some _ _ _ Hi) as (_ & Hno_i & _).
  destruct (index_Some _ _ _ Hj) as (_ & Hno_j & _).
  simpl. split_and!.
  - apply strip_idemp.
  - by apply has_char_strip, has_char_take_any.
  - apply strip_idemp.
  - apply has_char_strip. unfold slice.
    by apply has_char_take_any, has_char_drop_any.
  - by apply has_char_strip.
  - by apply has_char_strip, has_char_slice.
Qed.

(** X2. Every doctor [parse_doctors] returns is tidy: its name and its
    specialty have no white space around them and hold no comma; a
    doctor without specialty has a name that is not empty; a doctor
    with a specialty has no opening parenthesis in the name and no
    closing one in the specialty. *)
Theorem parse_doctors_tidy (input : string) :
  exists doctors,
    Cli.parse_doctors input = Ok doctors /\
    Web.parse_doctors input = Ok doctors /\
    Forall tidy_doctor doctors.
Proof.
  exists (map doctor_of (entries input)).
  split_and!; [apply cli_parse_doctors_ok | apply web_parse_doctors_ok |].
  apply Forall_fmap. eapply Forall_impl; [apply entries_spec|].
  intros e (Hne & Hstrip & Hcomma). by apply doctor_of_tidy.
Qed.

(** X3. Parsing two inputs joined by a comma gives the doctors of the
    first followed by the doctors of the second. *)
Theorem parse_doctors_app (a b : string) :
  exists da db,
    Cli.parse_doctors a = Ok da /\
    Cli.parse_doctors b = Ok db /\
    Cli.parse_doctors (a +:+ "," +:+ b) = Ok (da ++ db) /\
    Web.parse_doctors (a +:+ "," +:+ b) = Ok (da ++ db).
Proof.
  exists (map doctor_of (entries a)), (map doctor_of (entries b)).
  rewrite web_parse_doctors_ok, !cli_parse_doctors_ok, entries_app, map_app.
  done.
Qed.

End MoreParseDoctors.

(** ** More on the names sent to the registry *)

Section MoreSplitName.

Implicit Types (s t u w : string) (c : ascii).

Lemma all_chars_snoc p s c :
  all_chars p (s +:+ String c EmptyString) = all_chars p s && p c.
Proof. rewrite all_chars_app. simpl. by rewrite andb_true_r. Qed.

Lemma app_not_empty_r s t : t <> EmptyString -> s +:+ t <> EmptyString.
Proof. destruct s; [done|]. by rewrite app_cons. Qed.

(** The pieces [split] with no argument returns are words. *)
Lemma split_ws_from_words s cur :
  match cur with Some w => is_word w | None => True end ->
  Forall is_word (split_ws_from cur s).
Proof.
  revert cur. induction s as [|a s IH]; intros cur Hcur; simpl.
  { destruct cur as [w|]; [constructor; [exact Hcur|constructor]|constructor]. }
  destruct (isspace a) eqn:Ha.
  - destruct cur as [w|]; [constructor; [done|]|]; by apply IH.
  - apply IH. destruct cur as [w|].
    + destruct Hcur as [Hne Hall]. split.
      * by apply app_not_empty_r.
      * rewrite all_chars_snoc, Hall. unfold nonspace. by rewrite Ha.
    + split; [done|]. simpl. unfold nonspace. by rewrite Ha.
Qed.

Lemma split_ws_words s : Forall is_word (split_ws s).
Proof. by apply split_ws_from_words. Qed.

Lemma rstrip_nonspace s : all_chars nonspace s = true -> rstrip s = s.
Proof.
  induction s as [|a s IH]; [done|]. simpl.
  intros [Ha Hs]%andb_true_iff. unfold nonspace in Ha.
  apply negb_true_iff in Ha. by rewrite Ha, IH.
Qed.

Lemma rstrip_app s u :
  rstrip u <> EmptyString -> rstrip (s +:+ u) = s +:+ rstrip u.
Proof.
  intros Hu. induction s as [|a s IH]; [done|].
  rewrite !app_cons. simpl. rewrite IH.
  assert (is_empty (s +:+ rstrip u) = false) as ->.
  { pose proof (app_not_empty_r s _ Hu). by destruct (s +:+ rstrip u). }
  by rewrite andb_false_r.
Qed.

Lemma rstrip_cons a u :
  rstrip u <> EmptyString -> rstrip (String a u) = String a (rstrip u).
Proof.
  intros Hu. simpl. destruct (rstrip u); [done|]. by rewrite andb_false_r.
Qed.

(** Words joined by single spaces: nothing to trim at the end. *)
Lemma rstrip_join_words t ts :
  Forall is_word (t :: ts) ->
  rstrip (join " " (t :: ts)) = join " " (t :: ts)
  /\ join " " (t :: ts) <> EmptyString.
Proof.
  revert t. induction ts as [|t2 ts IH]; intros t Hall.
  - inversion Hall as [|? ? [Hne Hw] _]; subst. simpl.
    by rewrite rstrip_nonspace.
  - inversion Hall as [|? ? [Hne Hw] Hrest]; subst.
    destruct (IH t2 Hrest) as [Hr Hn].
    change (join " " (t :: t2 :: ts))
      with (t +:+ String " " (join " " (t2 :: ts))).
    assert (rstrip (String " " (join " " (t2 :: ts)))
            = String " " (join " " (t2 :: ts))) as Hsp.
    { rewrite rstrip_cons; rewrite Hr; done. }
    split.
    + rewrite rstrip_app; rewrite Hsp; done.
    + by apply app_not_empty_r.
Qed.

Lemma strip_join_words t ts :
  Forall is_word (t :: ts) ->
  strip (join " " (t :: ts)) = join " " (t :: ts).
Proof.
  intros Hall. unfold strip. rewrite lstrip_of_clean.
  - by apply rstrip_join_words.
  - inversion Hall as [|? ? [Hne Hw] _]; subst.
    destruct t as [|a t]; [done|].
    simpl in Hw. apply andb_true_iff in Hw as [Ha _].
    unfold nonspace in Ha. apply negb_true_iff in Ha.
    destruct ts; simpl; rewrite ?app_cons; done.
Qed.

Lemma strip_word t : is_word t -> strip t = t.
Proof.
  intros H. apply (strip_join_words t []). constructor; [exact H|constructor].
Qed.

(** The names [search_npi] sends have no white space around them, and
    the first name of a name without comma is one word or none. *)
Lemma split_name_tidy name :
  exists first last,
    Cli.split_name name = Ok (first, last) /\
    strip first = first /\ strip last = last /\
    (has_char ","
       (strip (replace "Dr" EmptyString (replace "Dr." EmptyString name)))
     = false ->
     all_chars nonspace first = true).
Proof.
  unfold Cli.split_name. set (name_parts := strip _).
  rewrite contains_char.
  destruct (has_char "," name_parts) eqn:Hc.
  - destruct (split1_has_sep _ _ Hc) as (p & q & -> & _). simpl.
    exists (strip q), (strip p). by rewrite !strip_idemp.
  - pose proof (split_ws_words name_parts) as Hw.
    destruct (split_ws name_parts) as [|t [|t2 ts]] eqn:E; simpl.
    + exists EmptyString, name_parts. split_and!; try done.
      apply strip_idemp.
    + exists EmptyString, name_parts. split_and!; try done.
      apply strip_idemp.
    + inversion Hw as [|? ? Ht Hrest]; subst.
      exists t, (join " " (t2 :: ts)). split_and!; [done| | |].
      * by apply strip_word.
      * by apply strip_join_words.
      * intros _. by destruct Ht.
Qed.

(** X4. The first and the last name [search_npi] asks the registry for
    never carry white space around them, in either program; when the
    name holds no comma the first name is a single word, or empty. *)
Theorem split_name_trimmed (name : string) :
  exists first last,
    Cli.split_name name = Ok (first, last) /\
    Web.split_name name = Ok (first, last) /\
    strip first = first /\ strip last = last /\
    (has_char ","
       (strip (replace "Dr" EmptyString (replace "Dr." EmptyString name)))
     = false ->
     all_chars nonspace first = true).
Proof.
  destruct (split_name_tidy name) as (first & last & H & Hf & Hl & Hw).
  exists first, last. split_and!; done.
Qed.

Lemma is_empty_false s : is_empty s = false <-> s <> EmptyString.
Proof. by destruct s. Qed.

(** X5. A name field of the registry request is never blank: when
    [first_name] or [last_name] is sent, its value is a text that is
    not empty and has no white space around it. *)
Theorem request_names_not_blank (name state : string) (city : option string)
    (limit : Z) (k v : string) :
  k = "first_name" \/ k = "last_name" ->
  assoc k (params (registry_request name state city limit)) = Some (JStr v) ->
  v <> EmptyString /\ strip v = v.
Proof.
  unfold registry_request, names_of.
  destruct (split_name_tidy name) as (first & last & -> & Hf & Hl & _).
  simpl. intros [-> | ->]; simpl.
  - destruct (is_empty first) eqn:Ef; simpl.
    + destruct (is_empty last); simpl; [by destruct city as [[|]|]|].
      by destruct city as [[|]|].
    + intros [= <-]. split; [by apply is_empty_false | done].
  - destruct (is_empty first) eqn:Ef; simpl;
      (destruct (is_empty last) eqn:El; simpl;
       [by destruct city as [[|]|]
       |intros [= <-]; split; [by apply is_empty_false | done]]).
Qed.

Lemma request_names_not_blank_witness :
  "Smith" <> EmptyString /\ strip "Smith" = "Smith".
Proof.
  apply (request_names_not_blank "Dr. John  Smith " "TX" None 10
           "last_name" "Smith" (or_intror eq_refl) eq_refl).
Defined.

End MoreSplitName.

(** ** More on the records of a registry answer *)

Section MoreRecords.

Ltac bind_step :=
  match goal with
  | |- context [rbind (Ok ?a) _] => cbn [rbind]
  | |- context [rbind (Err ?e) _] => cbn [rbind]
  | |- context [rbind ?m _] => destruct m as [?|?] eqn:?; cbn [rbind]
  end.

Lemma normalize_filter sp r rec :
  Cli.normalize None r = Ok (Some rec) ->
  text_specialty rec ->
  Cli.normalize sp r = Ok (if kept sp rec then Some rec else None).
Proof.
  unfold Cli.normalize. 
  do 6 (bind_step; [|done]).
  change (Cli.filtered_out None a4) with (@Ok bool false). cbn [rbind].
  do 10 (bind_step; [|done]).
  intros [= <-] [d Hd]. simpl in Hd. subst a4.
  unfold kept, Cli.filtered_out. simpl.
  destruct sp as [f|]; [|done].
  destruct (is_empty f); [done|]. simpl.
  by destruct (contains (lower f) (lower d)).
Qed.

Lemma normalize_none_some r o :
  Cli.normalize None r = Ok o ->
  exists rec, o = Some rec /\
    Cli.NPIResult.npi rec = field_or (JStr EmptyString) "number" r.
Proof.
  unfold Cli.normalize.
  do 6 (bind_step; [|done]).
  change (Cli.filtered_out None a4) with (@Ok bool false). cbn [rbind].
  do 10 (bind_step; [|done]).
  intros [= <-]. eexists. split; [done|]. simpl.
  destruct r; simpl in *; try discriminate. unfold field_or. simpl.
  match goal with
  | H : Ok _ = Ok ?x |- ?x = _ => injection H as <-
  end.
  by destruct (assoc "number" kv).
Qed.

(** What the loop has built so far stays at the head of its result. *)
Lemma collect_prefix sp rs acc l :
  Cli.collect sp rs acc = Ok l -> exists tail, l = acc ++ tail.
Proof.
  revert acc. induction rs as [|r rs IH]; intros acc; simpl.
  { intros [= <-]. exists []. by rewrite List.app_nil_r. }
  destruct (Cli.normalize sp r) as [o|e]; simpl; [|done].
  intros H. destruct (IH _ H) as (tail & ->).
  destruct o as [x|]; [|by eexists].
  exists (x :: tail). by rewrite <- List.app_assoc.
Qed.

Lemma collect_filter sp rs acc l :
  Cli.collect None rs acc = Ok l ->
  Forall text_specialty l ->
  Cli.collect sp rs (filter (fun r => kept sp r = true) acc)
  = Ok (filter (fun r => kept sp r = true) l).
Proof.
  revert acc. induction rs as [|r rs IH]; intros acc; simpl.
  { by intros [= <-]. }
  destruct (Cli.normalize None r) as [o|e] eqn:Hn; simpl; [|done].
  destruct (normalize_none_some _ _ Hn) as (rec & -> & _).
  intros Hrun Hall.
  destruct (collect_prefix _ _ _ _ Hrun) as (tail & Htail).
  assert (text_specialty rec) as Hrec.
  { rewrite Htail in Hall. apply Forall_app in Hall as [Hall _].
    apply Forall_app in Hall as [_ Hall]. by inversion Hall. }
  rewrite (normalize_filter sp r rec Hn Hrec). simpl.
  rewrite <- (IH _ Hrun Hall), filter_app, filter_cons, filter_nil.
  destruct (kept sp rec); simpl; rewrite ?List.app_nil_r; done.
Qed.

Lemma records_filter sp data l :
  Cli.records_of None data = Ok l ->
  Forall text_specialty l ->
  Cli.records_of sp data = Ok (filter (fun r => kept sp r = true) l).
Proof.
  intros Hrun Hall. revert Hrun. unfold Cli.records_of.
  do 2 (bind_step; [|done]). intros Hrun.
  apply (collect_filter sp _ [] l Hrun Hall).
Qed.

(** X6. The specialty filter only removes records: when the records of
    a body can be read without filter and their specialties are texts,
    reading them with a filter gives those that pass it, in the same
    order, and the web form gives the rows of these.  A record passes
    when the filter, in lower case, occurs in its specialty, in lower
    case. *)
Theorem filter_selects (sp : option string) (data : JSON)
    (l : list Cli.NPIResult.t) :
  Cli.records_of None data = Ok l ->
  Forall text_specialty l ->
  Cli.records_of sp data = Ok (filter (fun r => kept sp r = true) l) /\
  Web.records_of sp data
  = Ok (map Cli.row_of (filter (fun r => kept sp r = true) l)).
Proof.
  intros Hrun Hall. pose proof (records_filter sp data l Hrun Hall) as H.
  split; [done|]. by rewrite web_records_of_rows, H.
Qed.

Lemma filter_selects_witness :
  Cli.records_of (Some "CARDIO") sample_body
  = Ok (filter (fun r => kept (Some "CARDIO") r = true)
          (match Cli.records_of None sample_body with
           | Ok l => l
           | Err _ => []
           end)) /\
  Web.records_of (Some "CARDIO") sample_body
  = Ok (map Cli.row_of
          (filter (fun r => kept (Some "CARDIO") r = true)
             (match Cli.records_of None sample_body with
              | Ok l => l
              | Err _ => []
              end))).
Proof.
  apply (filter_selects (Some "CARDIO") sample_body).
  - vm_compute. reflexivity.
  - vm_compute. repeat constructor; by eexists.
Defined.

(** The example of the specification: Family Medicine is dropped by the
    filter Cardiology and kept by the filter family. *)
Example filter_family_medicine :
  forall r, Cli.NPIResult.specialty r = JStr "Family Medicine" ->
    kept (Some "Cardiology") r = false /\ kept (Some "family") r = true.
Proof. intros r H. unfold kept. rewrite H. by vm_compute. Qed.

(** X7. Without filter, the records come one per result of the body and
    in its order: their registry numbers are the numbers of the
    results.  With a filter there are at most as many records as
    results. *)
Theorem records_follow_results (data : JSON) (rs : list JSON)
    (l : list Cli.NPIResult.t) :
  field_or (JArr []) "results" data = JArr rs ->
  Cli.records_of None data = Ok l ->
  map Cli.NPIResult.npi l = map (field_or (JStr EmptyString) "number") rs /\
  length l = length rs /\
  forall sp l', Cli.records_of sp data = Ok l' ->
    Forall text_specialty l -> (length l' <= length rs)%nat.
Proof.
  intros Hrs Hrun.
  assert (forall acc l0, Cli.collect None rs acc = Ok l0 ->
            map Cli.NPIResult.npi l0
            = map Cli.NPIResult.npi acc
              ++ map (field_or (JStr EmptyString) "number") rs) as Hcollect.
  { clear. induction rs as [|r rs IH]; intros acc l0; simpl.
    { intros [= <-]. by rewrite List.app_nil_r. }
    destruct (Cli.normalize None r) as [o|e] eqn:Hn; simpl; [|done].
    destruct (normalize_none_some _ _ Hn) as (rec & -> & Hnpi).
    intros H. rewrite (IH _ _ H), map_app. simpl.
    by rewrite Hnpi, <- List.app_assoc. }
  assert (Cli.collect None rs [] = Ok l) as Hl.
  { unfold Cli.records_of in Hrun. destruct data; try done.
    unfold field_or, field in Hrs. cbn [get rbind] in Hrun.
    destruct (assoc "results" kv) as [v|]; simpl in Hrs;
      [subst v|injection Hrs as <-]; exact Hrun. }
  pose proof (Hcollect _ _ Hl) as Hmap. simpl in Hmap.
  assert (length l = length rs) as Hlen.
  { by rewrite <- (length_map Cli.NPIResult.npi), Hmap, length_map. }
  split_and!; [done..|].
  intros sp l' Hrun' Hall.
  rewrite (records_filter sp data l Hrun Hall) in Hrun'. injection Hrun' as <-.
  rewrite <- Hlen. apply length_filter.
Qed.

Lemma records_follow_results_witness :
  map Cli.NPIResult.npi
    (match Cli.records_of None sample_body with Ok l => l | Err _ => [] end)
  = map (field_or (JStr EmptyString) "number")
      (map sample_record ["1"; "2"; "3"; "4"; "5"; "6"]) /\
  length (match Cli.records_of None sample_body with
          | Ok l => l
          | Err _ => []
          end)
  = length (map sample_record ["1"; "2"; "3"; "4"; "5"; "6"]) /\
  forall sp l', Cli.records_of sp sample_body = Ok l' ->
    Forall text_specialty
      (match Cli.records_of None sample_body with Ok l => l | Err _ => [] end) ->
    (length l' <= length (map sample_record ["1"; "2"; "3"; "4"; "5"; "6"]))%nat.
Proof.
  apply (records_follow_results sample_body).
  - reflexivity.
  - vm_compute. reflexivity.
Defined.

End MoreRecords.

(** ** More on the two lookups *)

Section MoreLookups.

Variable float_of_str : string -> option pyfloat.

(** X8. [search_npi] issues one request and one only, to the registry
    endpoint with the timeout of 15 seconds, whatever comes back.  In
    the web form it never raises.  In the command-line tool no request
    exception leaves it: the only error it lets through is the one of
    a body that came back and is not shaped as the registry shapes
    it. *)
Theorem search_npi_one_request (name state : string)
    (city specialty : option string) (limit : Z) (w : World) :
  let r := registry_request name state city limit in
  url r = Cli.NPI_API /\ timeout r = 15 /\
  snd (Cli.search_npi name state city specialty limit w) = sent r w /\
  snd (Web.search_npi name state city specialty limit w) = sent r w /\
  (exists rows,
      fst (Web.search_npi name state city specialty limit w) = Ok rows) /\
  (forall e,
      fst (Cli.search_npi name state city specialty limit w) = Err e ->
      e = OtherError /\ exists doc, outcome w r = Body doc).
Proof.
  intros r. rewrite cli_search_npi_run, web_search_npi_run. fold r. simpl.
  split_and!; try done.
  - by eexists.
  - intros e He. destruct (outcome w r) as [err|doc]; [done|]. simpl in He.
    split; [|by eexists]. by apply (plain_cli_records_of specialty doc).
Qed.

Lemma lower_app s t : lower (s +:+ t) = lower s +:+ lower t.
Proof.
  induction s as [|a s IH]; [done|]. rewrite app_cons. simpl.
  by rewrite IH, ?app_cons.
Qed.

Lemma contains_app_r sub s t :
  contains sub t = true -> contains sub (s +:+ t) = true.
Proof.
  intros H. induction s as [|a s IH]; [done|].
  rewrite app_cons. simpl. rewrite IH. apply orb_true_r.
Qed.

(** X9. The text sent to the geocoder always names Texas: in lower case
    it holds [tx] or [texas], the location being sent unchanged when it
    does so itself and followed by [, TX] when it does not; doing it
    twice changes nothing more. *)
Theorem geocoder_query_names_texas (location : string) :
  let q := Cli.geocoder_query location in
  (contains "tx" (lower q) || contains "texas" (lower q) = true) /\
  (q = location \/ q = location +:+ ", TX") /\
  (q = location <->
   contains "tx" (lower location) || contains "texas" (lower location) = true)
  /\ Cli.geocoder_query q = q.
Proof.
  intros q.
  assert (contains "tx" (lower (location +:+ ", TX")) = true) as Happ.
  { rewrite lower_app. by apply contains_app_r. }
  assert (location +:+ ", TX" <> location) as Hne.
  { clear. induction location as [|a s IH]; [done|].
    rewrite app_cons. by intros [= H]. }
  unfold q, Cli.geocoder_query.
  destruct (contains "tx" (lower location)) eqn:Htx;
    [|destruct (contains "texas" (lower location)) eqn:Htexas]; simpl.
  - rewrite Htx. simpl. split_and!; [done | by left | done | done].
  - rewrite Htx, Htexas. simpl. split_and!; [done | by left | done | done].
  - rewrite Happ. simpl. split_and!; [done | by right | | done].
    split; [by intros ?%Hne | done].
Qed.

(** X10. When the table does not know the location and the geocoder
    answers with a list of results, the coordinates are the [lat] and
    the [lon] of the first result, read as floats; the other results
    are not looked at, and one request has been issued. *)
Theorem geocode_first_result (location : string) (w : World)
    (first : JSON) (others : list JSON) (lat_v lon_v : JSON)
    (lat lon : pyfloat) :
  let r := Cli.geocoder_request (Cli.geocoder_query location) in
  Cli.TEXAS_LOCATIONS !! Cli.normalize_location location = None ->
  outcome w r = Body (JArr (first :: others)) ->
  getitem first "lat" = Ok lat_v -> to_float float_of_str lat_v = Ok lat ->
  getitem first "lon" = Ok lon_v -> to_float float_of_str lon_v = Ok lon ->
  Cli.geocode_location float_of_str location w = (Ok (lat, lon), sent r w).
Proof.
  intros r Hmiss Hout Hlat_v Hlat Hlon_v Hlon.
  unfold Cli.geocode_location. rewrite Hmiss.
  unfold bind, try_except, get_json, lift, ret. fold r. rewrite Hout.
  unfold Cli.first_coordinates. cbn [truthy first_item rbind].
  by rewrite Hlat_v, Hlon_v; cbn [rbind]; rewrite Hlat, Hlon.
Qed.

Lemma to_float_error v e :
  to_float float_of_str v = Err e -> e <> RequestException.
Proof.
  destruct v as [| b | n | x | t | l | kv]; cbn [to_float];
    try (by intros [= <-]).
  - destruct (exact_int n); [done|].
    destruct (float_range n); [|by intros [= <-]].
    destruct (float_of_str (int_str n)); [done|]. by intros [= <-].
  - destruct (float_of_str t); [done|]. by intros [= <-].
Qed.

Lemma getitem_error v k e : getitem v k = Err e -> e = OtherError.
Proof.
  destruct v as [| | | | | |kv]; simpl; try (by intros [= <-]).
  destruct (assoc k kv); [done|]. by intros [= <-].
Qed.

Lemma first_coordinates_error results e :
  Cli.first_coordinates float_of_str results = Err e ->
  e <> RequestException.
Proof.
  unfold Cli.first_coordinates. destruct (truthy results); [|done].
  destruct (first_item results) as [r0|e0] eqn:E0; cbn [rbind].
  2:{ apply plain_first_item in E0 as ->. by intros [= <-]. }
  destruct (getitem r0 "lat") as [lat_v|e1] eqn:E1; cbn [rbind].
  2:{ apply getitem_error in E1 as ->. by intros [= <-]. }
  destruct (to_float float_of_str lat_v) as [lat|e2] eqn:E2; cbn [rbind].
  2:{ apply to_float_error in E2. by intros [= <-]. }
  destruct (getitem r0 "lon") as [lon_v|e3] eqn:E3; cbn [rbind].
  2:{ apply getitem_error in E3 as ->. by intros [= <-]. }
  destruct (to_float float_of_str lon_v) as [lon|e4] eqn:E4; cbn [rbind];
    [done|].
  apply to_float_error in E4. by intros [= <-].
Qed.

(** X11. No request exception ever leaves [geocode_location], and it
    issues at most one request: none when the table knows the location,
    else the one to the geocoder, limited to one result in the United
    States, with a timeout of 10 seconds. *)
Theorem geocode_contains_request_errors (location : string) (w : World) :
  let r := Cli.geocoder_request (Cli.geocoder_query location) in
  fst (Cli.geocode_location float_of_str location w) <> Err RequestException /\
  (snd (Cli.geocode_location float_of_str location w) = w \/
   snd (Cli.geocode_location float_of_str location w) = sent r w) /\
  (is_Some (Cli.TEXAS_LOCATIONS !! Cli.normalize_location location) <->
   forall w', snd (Cli.geocode_location float_of_str location w') = w') /\
  assoc "q" (params r) = Some (JStr (Cli.geocoder_query location)) /\
  assoc "limit" (params r) = Some (JNum 1) /\
  assoc "countrycodes" (params r) = Some (JStr "us") /\
  timeout r = 10.
Proof.
  intros r.
  assert (forall w0,
    Cli.TEXAS_LOCATIONS !! Cli.normalize_location location = None ->
    snd (Cli.geocode_location float_of_str location w0) = sent r w0 /\
    fst (Cli.geocode_location float_of_str location w0)
    <> Err RequestException) as Hmiss.
  { intros w0 Hnone. unfold Cli.geocode_location. rewrite Hnone.
    unfold bind, try_except, get_json, lift, ret, raise. fold r.
    destruct (outcome w0 r) as [e|results]; cbn [fst snd];
      [split; [reflexivity|discriminate]|].
    destruct (Cli.first_coordinates float_of_str results)
      as [[c|]|e] eqn:E; cbn [fst snd is_request_exception];
      try (split; [reflexivity|discriminate]).
    apply first_coordinates_error in E.
    destruct e; cbn [fst snd is_request_exception];
      [congruence | split; [reflexivity|discriminate]..]. }
  assert (forall c w0,
    Cli.TEXAS_LOCATIONS !! Cli.normalize_location location = Some c ->
    Cli.geocode_location float_of_str location w0 = (Ok c, w0)) as Hhit.
  { intros c w0 Hsome. unfold Cli.geocode_location. rewrite Hsome.
    reflexivity. }
  assert (Hq : assoc "q" (params r)
               = Some (JStr (Cli.geocoder_query location))) by reflexivity.
  assert (Hl : assoc "limit" (params r) = Some (JNum 1)) by reflexivity.
  assert (Hc : assoc "countrycodes" (params r) = Some (JStr "us"))
    by reflexivity.
  assert (Ht : timeout r = 10) by reflexivity.
  clearbody r.
  destruct (Cli.TEXAS_LOCATIONS !! Cli.normalize_location location)
    as [c|] eqn:Hkey.
  - rewrite (Hhit c w eq_refl). cbn [fst snd].
    split; [discriminate|]. split; [left; reflexivity|].
    split; [|repeat split; assumption].
    split; [|intros _; exists c; reflexivity].
    intros _ w'. rewrite (Hhit c w' eq_refl). reflexivity.
  - destruct (Hmiss w eq_refl) as [Hsnd Hfst].
    split; [exact Hfst|]. split; [right; exact Hsnd|].
    split; [|repeat split; assumption].
    split; [intros [c Hc']; discriminate Hc'|].
    intros Hall. exfalso.
    specialize (Hall offline).
    destruct (Hmiss offline eq_refl) as [Hsnd' _].
    rewrite Hsnd' in Hall. apply (f_equal issued) in Hall.
    unfold sent, offline in Hall. cbn [issued app] in Hall.
    discriminate Hall.
Qed.

End MoreLookups.

Lemma geocode_first_result_witness :
  Cli.geocode_location (fun _ => Some (Dec 315 1)) "Marfa"
    {| respond := fun _ _ =>
         Body (JArr [JObj [("lat", JStr "31.5"); ("lon", JStr "31.5")];
                     JNull]);
       issued := [] |}
  = (Ok (Dec 315 1, Dec 315 1),
     sent (Cli.geocoder_request "Marfa, TX")
       {| respond := fun _ _ =>
            Body (JArr [JObj [("lat", JStr "31.5"); ("lon", JStr "31.5")];
                        JNull]);
          issued := [] |}).
Proof.
  apply (geocode_first_result (fun _ => Some (Dec 315 1)) "Marfa" _
           (JObj [("lat", JStr "31.5"); ("lon", JStr "31.5")]) [JNull]
           (JStr "31.5") (JStr "31.5")).
  - vm_compute. reflexivity.
  - reflexivity.
  - reflexivity.
  - reflexivity.
  - reflexivity.
  - reflexivity.
Defined.

(** ** The run of the command-line tool *)

Section MoreMain.

Variable float_of_str : string -> option pyfloat.

Lemma sent_all_app rs rs' w :
  sent_all (rs ++ rs') w = sent_all rs' (sent_all rs w).
Proof. revert w. induction rs as [|r rs IH]; intros w; [done|]. apply IH. Qed.

(** The world [geocode_location] leaves. *)
Lemma geocode_location_world location w :
  snd (Cli.geocode_location float_of_str location w)
  = match Cli.TEXAS_LOCATIONS !! Cli.normalize_location location with
    | Some _ => w
    | None => sent (Cli.geocoder_request (Cli.geocoder_query location)) w
    end.
Proof.
  unfold Cli.geocode_location.
  destruct (Cli.TEXAS_LOCATIONS !! Cli.normalize_location location);
    [reflexivity|].
  unfold bind, try_except, get_json, lift, ret, raise.
  destruct (outcome w _) as [e|results]; cbn [fst snd is_request_exception];
    [reflexivity|].
  destruct (Cli.first_coordinates float_of_str results) as [[c|]|e];
    cbn [fst snd]; try reflexivity.
  destruct (is_request_exception e); reflexivity.
Qed.

(** The world lines 388-402 leave. *)
Lemma resolve_world args w :
  snd (Cli.resolve float_of_str args w) = sent_all (geocoder_requests args) w.
Proof.
  unfold Cli.resolve, geocoder_requests.
  destruct (Cli.given (Cli.coords args)) as [c|].
  { destruct (Cli.parse_coords float_of_str c); reflexivity. }
  destruct (Cli.given (Cli.location args)) as [l|].
  2:{ destruct (Cli.TEXAS_LOCATIONS !! "dallas"); reflexivity. }
  pose proof (geocode_location_world l w) as Hw.
  destruct (Cli.geocode_location float_of_str l w) as [[p|e] w1].
  - cbn [snd] in *. rewrite Hw.
    destruct (Cli.TEXAS_LOCATIONS !! Cli.normalize_location l); reflexivity.
  - cbn [snd] in Hw.
    destruct e; cbn [snd]; rewrite Hw;
      destruct (Cli.TEXAS_LOCATIONS !! Cli.normalize_location l);
      reflexivity.
Qed.

(** A message of lines 388-402 is that of bad coordinates or that of a
    [ValueError] of [geocode_location]. *)
Lemma resolve_message args w message w1 :
  Cli.resolve float_of_str args w = (Ok (inl message), w1) ->
  (message = "Error: --coords must be 'lat,lon'" /\ w1 = w /\
   exists c, Cli.given (Cli.coords args) = Some c /\
             Cli.parse_coords float_of_str c = None) \/
  (exists l msg,
      Cli.given (Cli.coords args) = None /\
      Cli.given (Cli.location args) = Some l /\
      Cli.geocode_location float_of_str l w = (Err (ValueError msg), w1) /\
      message = "Error: " +:+ msg).
Proof.
  unfold Cli.resolve.
  destruct (Cli.given (Cli.coords args)) as [c|].
  { destruct (Cli.parse_coords float_of_str c) eqn:Hc; unfold ret;
      intros [= <- <-]. left. split_and!; [done..|]. by exists c. }
  destruct (Cli.given (Cli.location args)) as [l|].
  2:{ destruct (Cli.TEXAS_LOCATIONS !! "dallas"); unfold ret, raise;
        intros H; discriminate H. }
  destruct (Cli.geocode_location float_of_str l w) as [[p|e] w2] eqn:Hg.
  - intros H; discriminate H.
  - destruct e as [|msg|]; intros H; try discriminate H.
    injection H as <- <-. right. exists l, msg.
    split_and!; [reflexivity | reflexivity | exact Hg | reflexivity].
Qed.

(** A loop that ends has appended one bundle for each doctor, under the
    name and the filter of that doctor, after one request for each. *)
Lemma cli_check_each_ends lat lon radius city ds acc w bs w' :
  Cli.check_each ds lat lon radius city acc w = (Ok bs, w') ->
  exists bs',
    bs = acc ++ bs' /\
    map Cli.Bundle.doctor bs' = map Doctor.name ds /\
    map Cli.Bundle.specialty_filter bs' = map Doctor.specialty ds /\
    w' = sent_all (map (doctor_request city) ds) w.
Proof.
  revert acc w. induction ds as [|d ds IH]; intros acc w; simpl.
  { unfold ret. intros [= <- <-]. exists []. by rewrite List.app_nil_r. }
  unfold bind. rewrite cli_check_doctor_run.
  destruct (cli_answer _ _) as [found|e]; cbn [rbind];
    [|intros H; discriminate H].
  intros (bs' & -> & Hnames & Hfilters & ->)%IH.
  eexists (_ :: bs'). rewrite <- List.app_assoc.
  split_and!; [reflexivity | | | reflexivity].
  - simpl. by rewrite Hnames.
  - simpl. by rewrite Hfilters.
Qed.

(** [main] by the cases of its input. *)
Lemma main_cases args w :
  Cli.main float_of_str args w
  = match doctors_input args with
    | None => (Err OtherError, w)
    | Some input =>
        match map doctor_of (entries input) with
        | [] => (Ok (Cli.Exit 1 "Error: No doctors specified"), w)
        | d :: ds =>
            match Cli.resolve float_of_str args w with
            | (Ok (inl message), w1) => (Ok (Cli.Exit 1 message), w1)
            | (Ok (inr (lat, lon)), w1) =>
                match Cli.check_each (d :: ds) lat lon (Cli.radius args)
                        (Cli.city args) [] w1 with
                | (Ok bs, w2) => (Ok (Cli.Report bs), w2)
                | (Err e, w2) => (Err e, w2)
                end
            | (Err e, w1) => (Err e, w1)
            end
        end
    end.
Proof.
  unfold Cli.main, doctors_input, bind, lift, line_feed.
  destruct (Cli.given (Cli.doctors args)) as [d0|].
  - rewrite cli_parse_doctors_ok.
    destruct (map doctor_of (entries d0)) as [|d ds]; [reflexivity|].
    destruct (Cli.resolve float_of_str args w) as [[[m|[lat lon]]|e] w1];
      reflexivity.
  - destruct (Cli.file args) as [text|]; [|reflexivity].
    rewrite (replace_char (ascii_of_nat 10) "," text), cli_parse_doctors_ok.
    destruct (map doctor_of (entries _)) as [|d ds]; [reflexivity|].
    destruct (Cli.resolve float_of_str args w) as [[[m|[lat lon]]|e] w1];
      reflexivity.
Qed.

(** X12. A run of the command-line tool that exits does so with code 1
    and before any request to the registry: with no doctor in the
    input, or with coordinates that are not two floats, nothing has
    been requested at all; otherwise the location could not be
    resolved, and the message is that of the error [geocode_location]
    raised. *)
Theorem main_exits_before_lookups (args : Cli.Args) (w : World)
    (code : Z) (message : string) (w' : World) :
  Cli.main float_of_str args w = (Ok (Cli.Exit code message), w') ->
  code = 1 /\
  ((message = "Error: No doctors specified" /\ w' = w) \/
   (message = "Error: --coords must be 'lat,lon'" /\ w' = w) \/
   (exists l msg,
       Cli.given (Cli.coords args) = None /\
       Cli.given (Cli.location args) = Some l /\
       Cli.geocode_location float_of_str l w = (Err (ValueError msg), w') /\
       message = "Error: " +:+ msg /\
       w' = sent_all (geocoder_requests args) w)).
Proof.
  rewrite main_cases.
  destruct (doctors_input args) as [input|]; [|intros H; discriminate H].
  destruct (map doctor_of (entries input)) as [|d ds].
  { intros [= <- <- <-]. split; [done|]. by left. }
  pose proof (resolve_world args w) as Hworld.
  destruct (Cli.resolve float_of_str args w) as [[[m|[lat lon]]|e] w1] eqn:Hr;
    cbn [snd] in Hworld.
  - intros [= <- <- <-]. split; [done|]. right.
    destruct (resolve_message _ _ _ _ Hr)
      as [(-> & -> & _)|(l & msg & Hc & Hl & Hg & ->)].
    + by left.
    + right. by exists l, msg.
  - destruct (Cli.check_each _ _ _ _ _ _ _) as [[bs|e] w2];
      intros H; discriminate H.
  - intros H; discriminate H.
Qed.

(** X13. A run of the command-line tool that reports has parsed at
    least one doctor from its input, in which the line feeds of a file
    count as commas, and reports one bundle for each doctor, in order,
    under the name and the filter of that doctor.  It has issued the
    request to the geocoder first, if resolving the location takes one,
    and then one request to the registry for each doctor, in order. *)
Theorem main_reports_each_doctor (args : Cli.Args) (w : World)
    (bs : list Cli.Bundle.t) (w' : World) :
  Cli.main float_of_str args w = (Ok (Cli.Report bs), w') ->
  exists input ds,
    doctors_input args = Some input /\
    Cli.parse_doctors input = Ok ds /\
    ds <> [] /\
    map Cli.Bundle.doctor bs = map Doctor.name ds /\
    map Cli.Bundle.specialty_filter bs = map Doctor.specialty ds /\
    w' = sent_all (geocoder_requests args
                   ++ map (doctor_request (Cli.city args)) ds) w.
Proof.
  rewrite main_cases.
  destruct (doctors_input args) as [input|]; [|intros H; discriminate H].
  pose proof (cli_parse_doctors_ok input) as Hparse.
  destruct (map doctor_of (entries input)) as [|d ds];
    [intros H; discriminate H|].
  pose proof (resolve_world args w) as Hworld.
  destruct (Cli.resolve float_of_str args w) as [[[m|[lat lon]]|e] w1];
    cbn [snd] in Hworld; try (intros H; discriminate H).
  destruct (Cli.check_each _ _ _ _ _ _ _) as [[bs0|e] w2] eqn:Hloop;
    [|intros H; discriminate H].
  intros [= <- <-].
  apply cli_check_each_ends in Hloop as (bs' & -> & Hnames & Hfilters & ->).
  exists input, (d :: ds). rewrite sent_all_app, <- Hworld.
  split_and!; done.
Qed.

End MoreMain.

Lemma main_exits_before_lookups_witness :
  (EmptyString = "Error: No doctors specified" /\ offline = offline) \/
  exists l msg,
    Cli.given (Cli.coords marfa_args) = None /\
    Cli.given (Cli.location marfa_args) = Some l /\
    Cli.geocode_location (fun _ => None) l offline
    = (Err (ValueError msg),
       sent (Cli.geocoder_request "Marfa, TX") offline) /\
    "Error: Could not geocode: Marfa, TX. Use --coords or a major Texas city."
    = "Error: " +:+ msg /\
    sent (Cli.geocoder_request "Marfa, TX") offline
    = sent_all (geocoder_requests marfa_args) offline.
Proof.
  destruct (main_exits_before_lookups (fun _ => None) marfa_args offline 1
    "Error: Could not geocode: Marfa, TX. Use --coords or a major Texas city."
    (sent (Cli.geocoder_request "Marfa, TX") offline)) as [_ H].
  - vm_compute. reflexivity.
  - destruct H as [[H _]|[[H _]|H]]; [discriminate H..|]. right. exact H.
Defined.

Lemma main_reports_each_doctor_witness :
  exists input ds,
    doctors_input austin_args = Some input /\
    Cli.parse_doctors input = Ok ds /\
    ds <> [] /\
    map Cli.Bundle.doctor
      (reported (Cli.main (fun _ => None) austin_args sample_world))
    = map Doctor.name ds /\
    map Cli.Bundle.specialty_filter
      (reported (Cli.main (fun _ => None) austin_args sample_world))
    = map Doctor.specialty ds /\
    snd (Cli.main (fun _ => None) austin_args sample_world)
    = sent_all (geocoder_requests austin_args
                ++ map (doctor_request (Cli.city austin_args)) ds)
        sample_world.
Proof.
  apply (main_reports_each_doctor (fun _ => None) austin_args sample_world).
  vm_compute. reflexivity.
Defined.

Example main_austin_run :
  map (fun b => (Cli.Bundle.doctor b, Cli.Bundle.specialty_filter b,
                 Cli.Bundle.npi_count b))
    (reported (Cli.main (fun _ => None) austin_args sample_world))
  = [("Jane Doe", None, 6%nat);
     ("Dr. John Smith", Some "Cardiology", 0%nat)].
Proof. vm_compute. reflexivity. Qed.
